(** * A shallow embedding of the TMDB proxy backend ([main.py])

    The development follows the source file top-down: the Python builtins
    the code relies on ([str.strip], [str.split], [int], truthiness,
    [dict.get], iteration), the JSON values that travel through the
    handlers, the provider client [tmdb_get], the normalizer
    [map_tmdb_item] and the three endpoint handlers.

    Conventions.
    - A Python [str] is a [string]; a character is a code point below 256.
    - A Python [int] is a [Z]; a Python [float] is a primitive [float].
    - A Python [dict] is an association list in insertion order, looked up
      at the first binding of a key.
    - A raised exception is the [Raise] branch of [result]. *)

From Stdlib Require Import ZArith List String Ascii Bool Lia.
From Stdlib Require Import DecimalString PrimFloat.
Import ListNotations.

Open Scope string_scope.
Open Scope Z_scope.

(** ** Python strings *)

Module PyStr.

Definition code (c : ascii) : Z := Z.of_nat (nat_of_ascii c).

(** [c.isspace()] on code points below 256: TAB..CR, FS..US, SPACE, NEL
    and NBSP.  This is the set [str.strip()] removes. *)
Definition isspace (c : ascii) : bool :=
  let n := code c in
  ((9 <=? n) && (n <=? 13)) || ((28 <=? n) && (n <=? 32))
  || (n =? 133) || (n =? 160).

(** The blanks [int()] skips around a literal: on a string of code points
    below 128 only TAB..CR and SPACE; NEL and NBSP are first rewritten to
    a space, FS..US are not. *)
Definition int_blank (c : ascii) : bool :=
  let n := code c in
  ((9 <=? n) && (n <=? 13)) || (n =? 32) || (n =? 133) || (n =? 160).

Definition isdigit (c : ascii) : bool :=
  let n := code c in (48 <=? n) && (n <=? 57).

Definition digit_val (c : ascii) : Z := code c - 48.

Fixpoint lstrip_by (p : ascii -> bool) (s : string) : string :=
  match s with
  | EmptyString => EmptyString
  | String c s' => if p c then lstrip_by p s' else s
  end.

Fixpoint rstrip_by (p : ascii -> bool) (s : string) : string :=
  match s with
  | EmptyString => EmptyString
  | String c s' =>
      match rstrip_by p s' with
      | EmptyString => if p c then EmptyString else String c EmptyString
      | r => String c r
      end
  end.

(** [s.strip()] *)
Definition strip (s : string) : string := rstrip_by isspace (lstrip_by isspace s).

(** [s.split("-")[0]]: the text before the first dash, the whole string
    when there is none. *)
Fixpoint split_dash_0 (s : string) : string :=
  match s with
  | EmptyString => EmptyString
  | String c s' => if Ascii.eqb c "-" then EmptyString else String c (split_dash_0 s')
  end.

(** Digits after a digit has been read: more digits, an underscore only
    between two digits. *)
Fixpoint int_digits (acc : Z) (s : string) : option Z :=
  match s with
  | EmptyString => Some acc
  | String c s' =>
      if isdigit c then int_digits (10 * acc + digit_val c) s'
      else if Ascii.eqb c "_" then
        match s' with
        | String d s'' =>
            if isdigit d then int_digits (10 * acc + digit_val d) s'' else None
        | EmptyString => None
        end
      else None
  end.

Definition int_unsigned (s : string) : option Z :=
  match s with
  | String c s' => if isdigit c then int_digits (digit_val c) s' else None
  | EmptyString => None
  end.

(** [int(s)] in base ten; [None] is [ValueError]. *)
Definition int (s : string) : option Z :=
  match rstrip_by int_blank (lstrip_by int_blank s) with
  | String "+" r => int_unsigned r
  | String "-" r => option_map Z.opp (int_unsigned r)
  | r => int_unsigned r
  end.

(** [str(n)] for an integer. *)
Definition of_int (n : Z) : string := NilZero.string_of_int (Z.to_int n).

Definition chars (s : string) : list string :=
  map (fun c => String c EmptyString) (list_ascii_of_string s).

End PyStr.

(** ** JSON values, as [resp.json()] builds them *)

Set Warnings "-register-all".

Inductive json : Type :=
| JNull
| JBool (b : bool)
| JInt (n : Z)
| JFloat (f : float)
| JStr (s : string)
| JList (l : list json)
| JDict (d : list (string * json)).

Inductive exn : Type :=
| HTTPException (status_code : Z) (detail : string)
| AttributeError
| TypeError
| ValueError.

Inductive result (A : Type) : Type :=
| Ok (a : A)
| Raise (e : exn).
Arguments Ok {A} a.
Arguments Raise {A} e.

Definition rbind {A B} (r : result A) (k : A -> result B) : result B :=
  match r with
  | Ok a => k a
  | Raise e => Raise e
  end.

Fixpoint rmap {A B} (f : A -> result B) (l : list A) : result (list B) :=
  match l with
  | [] => Ok []
  | x :: l' =>
      rbind (f x) (fun y => rbind (rmap f l') (fun ys => Ok (y :: ys)))
  end.

Module Py.

(** [bool(v)] *)
Definition truthy (v : json) : bool :=
  match v with
  | JNull => false
  | JBool b => b
  | JInt n => negb (n =? 0)
  | JFloat f => negb (PrimFloat.eqb f 0%float)
  | JStr s => negb (String.eqb s "")
  | JList l => match l with [] => false | _ => true end
  | JDict d => match d with [] => false | _ => true end
  end.

(** [a or b] *)
Definition or_ (a b : json) : json := if truthy a then a else b.

Fixpoint lookup (d : list (string * json)) (k : string) : option json :=
  match d with
  | [] => None
  | (k', v) :: d' => if String.eqb k' k then Some v else lookup d' k
  end.

(** [d.get(k, default)] *)
Definition get_or (d : list (string * json)) (k : string) (default : json) : json :=
  match lookup d k with
  | Some v => v
  | None => default
  end.

(** [d.get(k)] *)
Definition get (d : list (string * json)) (k : string) : json := get_or d k JNull.

(** [d[k] = v]: an existing key keeps its place, a new one goes last. *)
Fixpoint setitem (d : list (string * json)) (k : string) (v : json)
  : list (string * json) :=
  match d with
  | [] => [(k, v)]
  | (k', v') :: d' =>
      if String.eqb k' k then (k, v) :: d' else (k', v') :: setitem d' k v
  end.

(** [d.update(u)] *)
Definition update (d u : list (string * json)) : list (string * json) :=
  fold_left (fun acc kv => setitem acc (fst kv) (snd kv)) u d.

(** [del d[k]] for every binding of [k]. *)
Fixpoint remove (d : list (string * json)) (k : string) : list (string * json) :=
  match d with
  | [] => []
  | (k', v) :: d' =>
      if String.eqb k' k then remove d' k else (k', v) :: remove d' k
  end.

(** [v.get(k, default)] on an arbitrary value: only a dict has [get]. *)
Definition attr_get (v : json) (k : string) (default : json) : result json :=
  match v with
  | JDict d => Ok (get_or d k default)
  | _ => Raise AttributeError
  end.

(** [for i in v]: a list yields its elements, a dict its keys, a string
    its characters; nothing else is iterable. *)
Definition iter (v : json) : result (list json) :=
  match v with
  | JList l => Ok l
  | JDict d => Ok (map (fun kv => JStr (fst kv)) d)
  | JStr s => Ok (map JStr (PyStr.chars s))
  | _ => Raise TypeError
  end.

End Py.

(** ** The outside world: the process environment and the upstream API *)

(** What [requests.get] was called with. *)
Record request : Type := mkRequest {
  req_url : string;
  req_params : list (string * json);
  req_timeout : Z
}.

(** What came back: [resp.status_code], [resp.text] and the value of
    [resp.json()], whose failure is a [requests.JSONDecodeError], itself a
    [requests.RequestException], carried here by its message. *)
Record response : Type := mkResponse {
  status_code : Z;
  text : string;
  json_body : string + json
}.

(** [requests.get] either raises a [requests.RequestException] (DNS,
    connection, timeout), carried by its message, or returns a response. *)
Inductive outcome : Type :=
| RequestException (msg : string)
| Responded (resp : response).

(** A handler runs against the log of the outbound calls issued so far. *)
Definition io (A : Type) : Type := list request -> result A * list request.

Definition ret {A} (a : A) : io A := fun log => (Ok a, log).

Definition throw {A} (e : exn) : io A := fun log => (Raise e, log).

Definition lift {A} (r : result A) : io A := fun log => (r, log).

Definition bind {A B} (c : io A) (k : A -> io B) : io B :=
  fun log =>
    match c log with
    | (Ok a, log') => k a log'
    | (Raise e, log') => (Raise e, log')
    end.

Notation "x <- c ;; k" := (bind c (fun x => k))
  (at level 61, c at next level, right associativity).

Notation "x <-- r ;; k" := (rbind r (fun x => k))
  (at level 61, r at next level, right associativity).

(** ** What the caller is answered

    The handlers raise; the answer to the caller is made by the framework
    the application object of line 7 installs. *)

(** The body of an answer: none, a JSON document, or plain text. *)
Inductive body : Type :=
| NoBody
| JsonBody (content : json)
| TextBody (content : string).

Record reply : Type := mkReply {
  reply_status : Z;
  reply_body : body
}.

(** ** A concrete world

    What the closed examples at the end run against: a rendering of non-string values
    that is exact on [None], booleans and integers (the examples format
    nothing else), an environment with and without the key, and a few
    upstream behaviours. *)

Definition str_scalar (v : json) : string :=
  match v with
  | JNull => "None"
  | JBool true => "True"
  | JBool false => "False"
  | JInt n => PyStr.of_int n
  | _ => ""
  end.

Definition env_with_key (name : string) : option string :=
  if String.eqb name "TMDB_API_KEY" then Some "k3y" else None.

Definition env_without_key (name : string) : option string := None.

Definition dq : string := String (ascii_of_nat 34) "".

(** The body [{"status_message":"Not found"}]. *)
Definition not_found_body : string :=
  "{" ++ dq ++ "status_message" ++ dq ++ ":" ++ dq ++ "Not found" ++ dq ++ "}".

Definition resp_not_found : response :=
  mkResponse 404 not_found_body
    (inr (JDict [("status_message", JStr "Not found")])).

Definition upstream_not_found (req : request) : outcome := Responded resp_not_found.

Definition item_x : list (string * json) :=
  [ ("id", JInt 42); ("title", JStr "X"); ("release_date", JStr "2020-01-01");
    ("poster_path", JStr "/a.jpg") ].

Definition page_x : list (string * json) :=
  [ ("page", JInt 1); ("total_pages", JInt 10); ("results", JList [JDict item_x]) ].

Definition upstream_page_x (req : request) : outcome :=
  Responded (mkResponse 200 "" (inr (JDict page_x))).

Definition movie_bare : list (string * json) :=
  [ ("id", JInt 550); ("title", JStr "Fight Club") ].

Definition upstream_movie_bare (req : request) : outcome :=
  Responded (mkResponse 200 "" (inr (JDict movie_bare))).

Definition item_2021 : list (string * json) := [ ("release_date", JStr "2021-05-04") ].

Definition item_empty_title : list (string * json) :=
  [ ("title", JStr ""); ("name", JStr "N") ].

Definition item_empty_overview : list (string * json) :=
  [ ("title", JStr "T"); ("overview", JStr "") ].

(** C3 as worded: the [title] field if present, else the [name] field,
    else [Untitled]. *)
Definition title_if_present (item : list (string * json)) : json :=
  match Py.lookup item "title" with
  | Some t => t
  | None =>
      match Py.lookup item "name" with
      | Some n => n
      | None => JStr "Untitled"
      end
  end.

Definition upstream_down (req : request) : outcome := RequestException "timed out".

Definition item_bad_date : list (string * json) :=
  [ ("id", JInt 7); ("release_date", JStr "soon") ].

Definition page_bad : list (string * json) :=
  [ ("page", JInt 1);
    ("results", JList [JDict item_x; JDict item_bad_date; JDict item_2021]) ].

Definition upstream_page_bad (req : request) : outcome :=
  Responded (mkResponse 200 "" (inr (JDict page_bad))).

Definition page_null_results : list (string * json) :=
  [ ("page", JInt 1); ("results", JNull) ].

Definition upstream_null_results (req : request) : outcome :=
  Responded (mkResponse 200 "" (inr (JDict page_null_results))).

Definition movie_null_videos : list (string * json) :=
  [ ("id", JInt 550); ("videos", JNull) ].

Definition upstream_movie_null_videos (req : request) : outcome :=
  Responded (mkResponse 200 "" (inr (JDict movie_null_videos))).

Definition item_null_title : list (string * json) :=
  [ ("title", JNull); ("name", JStr "N") ].

Definition item_zero_title : list (string * json) :=
  [ ("title", JInt 0); ("name", JStr "N") ].

Definition item_dated : list (string * json) :=
  [ ("release_date", JStr ("2021" ++ "-" ++ "xx-yy")) ].

Definition movie_full : list (string * json) :=
  [ ("id", JInt 550); ("title", JStr "Fight Club");
    ("release_date", JStr "1999-10-15");
    ("genres", JList [JDict [("id", JInt 18); ("name", JStr "Drama")]]);
    ("runtime", JInt 139);
    ("videos", JDict [("id", JInt 550);
                      ("results", JList [JDict [("key", JStr "SUXWAEX2jlg")]])]);
    ("credits", JDict [("cast", JList [JDict [("name", JStr "Edward Norton")]])]);
    ("homepage", JStr "http://www.foxmovies.com/movies/fight-club");
    ("status", JStr "Released") ].

Definition upstream_movie_full (req : request) : outcome :=
  Responded (mkResponse 200 "" (inr (JDict movie_full))).

(** A rule for the closed examples: no body below 200 nor for 204 and
    304. *)
Definition body_allowed_plain (status : Z) : bool :=
  negb ((status <? 200) || (status =? 204) || (status =? 304)).

Definition item_empties : list (string * json) :=
  [ ("id", JInt 9); ("title", JStr ""); ("name", JStr "N");
    ("release_date", JStr ""); ("first_air_date", JStr "2019-03-01");
    ("poster_path", JStr ""); ("overview", JStr "") ].

(** ** [main.py]

    The functions of the source, in its order.  The bounds and patterns the
    route declarations put on [page], [media_type] and [time_window] are
    enforced by the web framework before a handler runs; the handlers below
    are the function bodies and make no use of them. *)

Section Tmdb.

(** [str(v)] for a value that is not a string, as an f-string renders it. *)
Variable str_of : json -> string.
(** [os.getenv] *)
Variable getenv : string -> option string.
(** The upstream provider behind [requests.get]. *)
Variable requests_get : request -> outcome.
(** The framework's rule for the statuses that are answered with a body
    ([is_body_allowed_for_status_code]). *)
Variable body_allowed : Z -> bool.

Definition TMDB_BASE : string := "https://api.themoviedb.org/3".

(** [f"{v}"] *)
Definition fmt (v : json) : string :=
  match v with
  | JStr s => s
  | _ => str_of v
  end.

Definition get_tmdb_key : result string :=
  match getenv "TMDB_API_KEY" with
  | Some key =>
      if String.eqb key "" then
        Raise (HTTPException 500 "TMDB_API_KEY not set in environment")
      else Ok key
  | None => Raise (HTTPException 500 "TMDB_API_KEY not set in environment")
  end.

Definition tmdb_get (path : string) (params : option (list (string * json)))
  : io json :=
  key <- lift get_tmdb_key ;;
  let params :=
    match params with
    | Some p => if Py.truthy (JDict p) then p else []
    | None => []
    end in
  let params := Py.setitem params "api_key" (JStr key) in
  let url := TMDB_BASE ++ path in
  let req := mkRequest url params 15 in
  fun log =>
    let log := (log ++ [req])%list in
    match requests_get req with
    | Responded resp =>
        if negb (status_code resp =? 200) then
          (Raise (HTTPException (status_code resp) (text resp)), log)
        else
          match json_body resp with
          | inr data => (Ok data, log)
          | inl e =>
              (Raise (HTTPException 502 ("TMDB request failed: " ++ e)), log)
          end
    | RequestException e =>
        (Raise (HTTPException 502 ("TMDB request failed: " ++ e)), log)
    end.

(** [int(date.split("-")[0]) if date else None] *)
Definition year_of (date : json) : result json :=
  if Py.truthy date then
    match date with
    | JStr s =>
        match PyStr.int (PyStr.split_dash_0 s) with
        | Some n => Ok (JInt n)
        | None => Raise ValueError
        end
    | _ => Raise AttributeError
    end
  else Ok JNull.

Definition map_tmdb_item (item : json) : result json :=
  match item with
  | JDict item =>
      let title :=
        Py.or_ (Py.or_ (Py.get item "title") (Py.get item "name"))
               (JStr "Untitled") in
      let date :=
        Py.or_ (Py.or_ (Py.get item "release_date") (Py.get item "first_air_date"))
               (JStr "") in
      year <-- year_of date ;;
      let poster_path := Py.get item "poster_path" in
      Ok (JDict
        [ ("id", Py.get item "id");
          ("title", title);
          ("year", year);
          ("rating", Py.get item "vote_average");
          ("media_type", Py.get item "media_type");
          ("poster",
            if Py.truthy poster_path
            then JStr ("https://image.tmdb.org/t/p/w500" ++ fmt poster_path)
            else JNull);
          ("backdrop",
            if Py.truthy (Py.get item "backdrop_path")
            then JStr ("https://image.tmdb.org/t/p/w780"
                       ++ fmt (Py.get item "backdrop_path"))
            else JNull);
          ("overview", Py.get item "overview");
          ("original_language", Py.get item "original_language") ])
  | _ => Raise AttributeError
  end.

Definition tmdb_trending (media_type time_window : string) (page : Z) : io json :=
  data <- tmdb_get ("/trending/" ++ media_type ++ "/" ++ time_window)
                   (Some [("page", JInt page)]) ;;
  lift (
    rs <-- Py.attr_get data "results" (JList []) ;;
    items <-- Py.iter rs ;;
    results <-- rmap map_tmdb_item items ;;
    page <-- Py.attr_get data "page" (JInt 1) ;;
    total_pages <-- Py.attr_get data "total_pages" (JInt 1) ;;
    Ok (JDict [("page", page); ("total_pages", total_pages);
               ("results", JList results)])).

Definition tmdb_search (query : string) (page : Z) (type : string) : io json :=
  if negb (Py.truthy (JStr (PyStr.strip query))) then
    throw (HTTPException 400 "Query is required")
  else
    let endpoint :=
      if String.eqb type "multi" then "/search/multi" else "/search/" ++ type in
    data <- tmdb_get endpoint
              (Some [("query", JStr query); ("page", JInt page);
                     ("include_adult", JBool false)]) ;;
    lift (
      rs <-- Py.attr_get data "results" (JList []) ;;
      items <-- Py.iter rs ;;
      results <-- rmap map_tmdb_item items ;;
      page <-- Py.attr_get data "page" (JInt 1) ;;
      total_pages <-- Py.attr_get data "total_pages" (JInt 1) ;;
      Ok (JDict [("page", page); ("total_pages", total_pages);
                 ("results", JList results)])).

Definition tmdb_movie_details (movie_id : Z) : io json :=
  data <- tmdb_get ("/movie/" ++ PyStr.of_int movie_id)
            (Some [("append_to_response", JStr "videos,credits")]) ;;
  lift (
    details <-- map_tmdb_item data ;;
    genres <-- Py.attr_get data "genres" (JList []) ;;
    runtime <-- Py.attr_get data "runtime" JNull ;;
    videos_obj <-- Py.attr_get data "videos" (JDict []) ;;
    videos <-- Py.attr_get videos_obj "results" (JList []) ;;
    credits <-- Py.attr_get data "credits" (JDict []) ;;
    homepage <-- Py.attr_get data "homepage" JNull ;;
    status <-- Py.attr_get data "status" JNull ;;
    release_date <-- Py.attr_get data "release_date" JNull ;;
    match details with
    | JDict details =>
        Ok (JDict (Py.update details
          [ ("genres", genres); ("runtime", runtime); ("videos", videos);
            ("credits", credits); ("homepage", homepage); ("status", status);
            ("release_date", release_date) ]))
    | _ => Raise AttributeError
    end).

(** ** Reading [map_tmdb_item] apart

    The three stages of the normalizer, named so that statements can refer
    to them: the resolved title (line 42), the resolved date (line 43) and
    the returned dict literal (lines 46-56). *)

Definition resolved_title (item : list (string * json)) : json :=
  Py.or_ (Py.or_ (Py.get item "title") (Py.get item "name")) (JStr "Untitled").

Definition resolved_date (item : list (string * json)) : json :=
  Py.or_ (Py.or_ (Py.get item "release_date") (Py.get item "first_air_date"))
         (JStr "").

Definition image_url (size : string) (path : json) : json :=
  if Py.truthy path
  then JStr ("https://image.tmdb.org" ++ "/t/p/" ++ size ++ fmt path)
  else JNull.

Definition canonical (item : list (string * json)) (year : json)
  : list (string * json) :=
  [ ("id", Py.get item "id");
    ("title", resolved_title item);
    ("year", year);
    ("rating", Py.get item "vote_average");
    ("media_type", Py.get item "media_type");
    ("poster", image_url "w500" (Py.get item "poster_path"));
    ("backdrop", image_url "w780" (Py.get item "backdrop_path"));
    ("overview", Py.get item "overview");
    ("original_language", Py.get item "original_language") ].

(** The keys [tmdb_movie_details] adds to the base item. *)
Definition detail_fields (data : list (string * json)) (videos : json)
  : list (string * json) :=
  [ ("genres", Py.get_or data "genres" (JList []));
    ("runtime", Py.get data "runtime");
    ("videos", videos);
    ("credits", Py.get_or data "credits" (JDict []));
    ("homepage", Py.get data "homepage");
    ("status", Py.get data "status");
    ("release_date", Py.get data "release_date") ].

(** The response envelope of the two listing handlers. *)
Definition envelope (data : list (string * json)) (results : list json) : json :=
  JDict [ ("page", Py.get_or data "page" (JInt 1));
          ("total_pages", Py.get_or data "total_pages" (JInt 1));
          ("results", JList results) ].

(** The call [tmdb_get] issues once a key is resolved. *)
Definition outbound (key path : string) (params : option (list (string * json)))
  : request :=
  mkRequest (TMDB_BASE ++ path)
    (Py.setitem
       match params with
       | Some p => if Py.truthy (JDict p) then p else []
       | None => []
       end "api_key" (JStr key))
    15.

(** A field that is missing, or present and equal to the empty string. *)
Definition empty_or_missing (item : list (string * json)) (k : string) : Prop :=
  Py.lookup item k = None \/ Py.lookup item k = Some (JStr "").

(** The fields whose value the normalizer tests for truth before use. *)
Definition fallback_fields : list string :=
  [ "title"; "name"; "release_date"; "first_air_date";
    "poster_path"; "backdrop_path" ].

(** The fields the normalizer copies. *)
Definition passthrough_fields : list string :=
  [ "id"; "vote_average"; "media_type"; "overview"; "original_language" ].

(** What [tmdb_get] makes of the outcome of its one outbound call. *)
Definition answer (o : outcome) : result json :=
  match o with
  | Responded resp =>
      if negb (status_code resp =? 200) then
        Raise (HTTPException (status_code resp) (text resp))
      else
        match json_body resp with
        | inr data => Ok data
        | inl e => Raise (HTTPException 502 ("TMDB request failed: " ++ e))
        end
  | RequestException e => Raise (HTTPException 502 ("TMDB request failed: " ++ e))
  end.

Definition key_unset : Prop :=
  getenv "TMDB_API_KEY" = None \/ getenv "TMDB_API_KEY" = Some "".

(** The path and parameters each handler hands to [tmdb_get]. *)
Definition trending_path (media_type time_window : string) : string :=
  "/trending/" ++ media_type ++ "/" ++ time_window.

Definition search_path (type : string) : string :=
  if String.eqb type "multi" then "/search/multi" else "/search/" ++ type.

Definition search_params (query : string) (page : Z) : list (string * json) :=
  [("query", JStr query); ("page", JInt page); ("include_adult", JBool false)].

Definition movie_path (movie_id : Z) : string := "/movie/" ++ PyStr.of_int movie_id.

Definition movie_params : list (string * json) :=
  [("append_to_response", JStr "videos,credits")].

(** Lines 123-124 and 133-134: what both listing handlers do with the
    payload. *)
Definition listing (data : json) : result json :=
  rs <-- Py.attr_get data "results" (JList []) ;;
  items <-- Py.iter rs ;;
  results <-- rmap map_tmdb_item items ;;
  page <-- Py.attr_get data "page" (JInt 1) ;;
  total_pages <-- Py.attr_get data "total_pages" (JInt 1) ;;
  Ok (JDict [("page", page); ("total_pages", total_pages);
             ("results", JList results)]).

(** Lines 140-150: what the detail handler does with the payload. *)
Definition detail (data : json) : result json :=
  details <-- map_tmdb_item data ;;
  genres <-- Py.attr_get data "genres" (JList []) ;;
  runtime <-- Py.attr_get data "runtime" JNull ;;
  videos_obj <-- Py.attr_get data "videos" (JDict []) ;;
  videos <-- Py.attr_get videos_obj "results" (JList []) ;;
  credits <-- Py.attr_get data "credits" (JDict []) ;;
  homepage <-- Py.attr_get data "homepage" JNull ;;
  status <-- Py.attr_get data "status" JNull ;;
  release_date <-- Py.attr_get data "release_date" JNull ;;
  match details with
  | JDict details =>
      Ok (JDict (Py.update details
        [ ("genres", genres); ("runtime", runtime); ("videos", videos);
          ("credits", credits); ("homepage", homepage); ("status", status);
          ("release_date", release_date) ]))
  | _ => Raise AttributeError
  end.

(** What a successful listing returns, stated once for both handlers:
    [handler] is the handler applied to its arguments, [path] and [params]
    what it hands to [tmdb_get]. *)
Definition listing_contract (handler : io json) (path : string)
           (params : list (string * json)) : Prop :=
  (forall log log' v,
     handler log = (Ok v, log') ->
     exists data items results,
       tmdb_get path (Some params) log = (Ok (JDict data), log') /\
       Py.iter (Py.get_or data "results" (JList [])) = Ok items /\
       Forall2 (fun i r => map_tmdb_item i = Ok r) items results /\
       v = envelope data results /\
       (forall l, Py.lookup data "results" = Some (JList l) -> items = l) /\
       (Py.lookup data "results" = None -> results = [])) /\
  (forall log log' data items results,
     tmdb_get path (Some params) log = (Ok (JDict data), log') ->
     Py.lookup data "results" = Some (JList items) ->
     Forall2 (fun i r => map_tmdb_item i = Ok r) items results ->
     handler log = (Ok (envelope data results), log')) /\
  (forall log log' data,
     tmdb_get path (Some params) log = (Ok (JDict data), log') ->
     Py.lookup data "results" = None ->
     handler log = (Ok (envelope data []), log')).

(** [data.get("videos", {}).get("results", [])] *)
Definition videos_of (data : list (string * json)) : result json :=
  Py.attr_get (Py.get_or data "videos" (JDict [])) "results" (JList []).

(** The [videos] entry is missing, or it is an object. *)
Definition videos_missing_or_object (data : list (string * json)) : Prop :=
  Py.lookup data "videos" = None \/ exists vd, Py.lookup data "videos" = Some (JDict vd).

(** Every field [map_tmdb_item] reads. *)
Definition read_fields : list string := fallback_fields ++ passthrough_fields.

(** A text with no dash in it. *)
Definition no_dash (s : string) : Prop :=
  forall c, In c (list_ascii_of_string s) -> c <> "-"%char.

(** A text made of whitespace only (the empty text included). *)
Definition blank (s : string) : Prop :=
  forall c, In c (list_ascii_of_string s) -> PyStr.isspace c = true.

(** A JSON value that is neither a string nor a container: [null], a
    boolean or a number. *)
Definition scalar (v : json) : Prop :=
  match v with
  | JNull | JBool _ | JInt _ | JFloat _ => True
  | JStr _ | JList _ | JDict _ => False
  end.

(** A JSON value that is an object. *)
Definition is_object (v : json) : Prop := exists d, v = JDict d.

(** A computation that leaves the log as it was or adds one call to it. *)
Definition appends_at_most_one (c : io json) : Prop :=
  forall log, exists l, snd (c log) = (log ++ l)%list /\ (List.length l <= 1)%nat.

(** FastAPI's handler for [HTTPException]
    ([fastapi.exception_handlers.http_exception_handler]): the exception's
    status, and the JSON object with the one key [detail] wherever the
    status allows a body. *)
Definition http_exception_handler (status : Z) (detail : string) : reply :=
  if body_allowed status
  then mkReply status (JsonBody (JDict [("detail", JStr detail)]))
  else mkReply status NoBody.

(** The answer to an exception that leaves a handler: the handler above
    for an [HTTPException], the server's plain 500 for anything else. *)
Definition respond_exn (e : exn) : reply :=
  match e with
  | HTTPException status detail => http_exception_handler status detail
  | _ => mkReply 500 (TextBody "Internal Server Error")
  end.

(** The run of [c] from [log] ends in an exception, and [r] is the answer
    the caller gets for it. *)
Definition answered (c : io json) (log : list request) (r : reply) : Prop :=
  exists e, fst (c log) = Raise e /\ respond_exn e = r.

(** The run of [c] from [log] ends with the provider's status and text in
    an [HTTPException], and the caller is answered with that status and,
    where a body is allowed, the text under [detail]. *)
Definition relays (c : io json) (log : list request) (resp : response) : Prop :=
  fst (c log) = Raise (HTTPException (status_code resp) (text resp)) /\
  (body_allowed (status_code resp) = true ->
   answered c log
     (mkReply (status_code resp) (JsonBody (JDict [("detail", JStr (text resp))])))) /\
  (body_allowed (status_code resp) = false ->
   answered c log (mkReply (status_code resp) NoBody)).

(** The key under which the normalizer returns a field it copies. *)
Definition output_key (k : string) : string :=
  if String.eqb k "vote_average" then "rating" else k.

(** The keys of the item the normalizer returns. *)
Definition canonical_keys : list string :=
  [ "id"; "title"; "year"; "rating"; "media_type"; "poster"; "backdrop";
    "overview"; "original_language" ].

(** The keys [tmdb_movie_details] adds. *)
Definition detail_keys : list string :=
  [ "genres"; "runtime"; "videos"; "credits"; "homepage"; "status";
    "release_date" ].

(** The entry [k] of [out] is the entry [k] of [data] when there is one,
    [default] when there is none. *)
Definition copied (data out : list (string * json)) (k : string) (default : json)
  : Prop :=
  (forall x, Py.lookup data k = Some x -> Py.lookup out k = Some x) /\
  (Py.lookup data k = None -> Py.lookup out k = Some default).

(** The [videos] of [out] is the [results] of the [videos] object of
    [data], the empty list when either is missing. *)
Definition videos_copied (data out : list (string * json)) : Prop :=
  (Py.lookup data "videos" = None -> Py.lookup out "videos" = Some (JList [])) /\
  (forall vd, Py.lookup data "videos" = Some (JDict vd) ->
     (forall l, Py.lookup vd "results" = Some l ->
        Py.lookup out "videos" = Some l) /\
     (Py.lookup vd "results" = None -> Py.lookup out "videos" = Some (JList []))).

(** [out] is the base item [base] followed by the seven detail entries
    taken from [data]. *)
Definition detail_shape (data base out : list (string * json)) : Prop :=
  map fst out = (map fst base ++ detail_keys)%list /\
  (forall k, ~ In k detail_keys -> Py.lookup out k = Py.lookup base k) /\
  copied data out "genres" (JList []) /\
  copied data out "runtime" JNull /\
  videos_copied data out /\
  copied data out "credits" (JDict []) /\
  copied data out "homepage" JNull /\
  copied data out "status" JNull /\
  copied data out "release_date" JNull.

Lemma map_tmdb_item_eq (item : list (string * json)) :
  map_tmdb_item (JDict item) =
  rbind (year_of (resolved_date item)) (fun year => Ok (JDict (canonical item year))).
Proof. reflexivity. Qed.

Lemma map_tmdb_item_ok (item : list (string * json)) (year : json) :
  year_of (resolved_date item) = Ok year ->
  map_tmdb_item (JDict item) = Ok (JDict (canonical item year)).
Proof. intros H. rewrite map_tmdb_item_eq, H. reflexivity. Qed.

Lemma map_tmdb_item_inv (item out : json) :
  map_tmdb_item item = Ok out ->
  exists d year,
    item = JDict d /\ year_of (resolved_date d) = Ok year /\
    out = JDict (canonical d year).
Proof.
  destruct item as [| | | | |l|d]; try discriminate.
  rewrite map_tmdb_item_eq.
  destruct (year_of (resolved_date d)) as [year|e] eqn:Hy; simpl; [|discriminate].
  intros H. injection H as <-. exists d, year. auto.
Qed.

(** ** Facts about the Python layer *)

Lemma lookup_remove_same (d : list (string * json)) (k : string) :
  Py.lookup (Py.remove d k) k = None.
Proof.
  induction d as [|[k' v] d IH]; simpl; [reflexivity|].
  destruct (String.eqb k' k) eqn:E; simpl; [exact IH|].
  rewrite E. exact IH.
Qed.

Lemma lookup_remove_other (d : list (string * json)) (k k' : string) :
  k <> k' -> Py.lookup (Py.remove d k) k' = Py.lookup d k'.
Proof.
  intros Hne. induction d as [|[k0 v] d IH]; simpl; [reflexivity|].
  destruct (String.eqb k0 k) eqn:E; simpl.
  - apply String.eqb_eq in E. subst k0.
    destruct (String.eqb k k') eqn:E'; [|exact IH].
    apply String.eqb_eq in E'. contradiction.
  - rewrite IH. reflexivity.
Qed.

Lemma get_remove_same (d : list (string * json)) (k : string) :
  Py.get (Py.remove d k) k = JNull.
Proof. unfold Py.get, Py.get_or. rewrite lookup_remove_same. reflexivity. Qed.

Lemma get_remove_other (d : list (string * json)) (k k' : string) :
  k <> k' -> Py.get (Py.remove d k) k' = Py.get d k'.
Proof.
  intros H. unfold Py.get, Py.get_or. rewrite lookup_remove_other by exact H.
  reflexivity.
Qed.

Lemma get_of_lookup (d : list (string * json)) (k : string) (v : json) :
  Py.lookup d k = Some v -> Py.get d k = v.
Proof. intros H. unfold Py.get, Py.get_or. rewrite H. reflexivity. Qed.

Lemma get_of_missing (d : list (string * json)) (k : string) :
  Py.lookup d k = None -> Py.get d k = JNull.
Proof. intros H. unfold Py.get, Py.get_or. rewrite H. reflexivity. Qed.

Lemma truthy_str (s : string) : s <> "" -> Py.truthy (JStr s) = true.
Proof.
  intros H. simpl. destruct (String.eqb s "") eqn:E; [|reflexivity].
  apply String.eqb_eq in E. contradiction.
Qed.

Lemma empty_or_missing_falsy (item : list (string * json)) (k : string) :
  empty_or_missing item k -> Py.truthy (Py.get item k) = false.
Proof.
  intros [H|H]; [rewrite (get_of_missing _ _ H)|rewrite (get_of_lookup _ _ _ H)];
    reflexivity.
Qed.

Lemma lstrip_all (p : ascii -> bool) (s : string) :
  (forall c, In c (list_ascii_of_string s) -> p c = true) ->
  PyStr.lstrip_by p s = "".
Proof.
  induction s as [|c s IH]; simpl; intros H; [reflexivity|].
  rewrite (H c) by (left; reflexivity). apply IH. intros c' Hc'. apply H. right. exact Hc'.
Qed.

Lemma strip_blank (s : string) :
  (forall c, In c (list_ascii_of_string s) -> PyStr.isspace c = true) ->
  PyStr.strip s = "".
Proof. intros H. unfold PyStr.strip. rewrite lstrip_all by exact H. reflexivity. Qed.

Lemma rmap_Forall2 {A B} (f : A -> result B) (l : list A) (rs : list B) :
  rmap f l = Ok rs <-> Forall2 (fun x y => f x = Ok y) l rs.
Proof.
  revert rs. induction l as [|x l IH]; intros rs; simpl.
  - split; intros H; [injection H as <-; constructor|inversion H; reflexivity].
  - split.
    + destruct (f x) as [y|e] eqn:Hx; simpl; [|discriminate].
      destruct (rmap f l) as [ys|e] eqn:Hl; simpl; [|discriminate].
      intros H. injection H as <-. constructor; [exact Hx|]. apply IH. reflexivity.
    + intros H. inversion H as [|x' y l' ys Hx Hl]; subst.
      rewrite Hx. simpl. apply IH in Hl. rewrite Hl. reflexivity.
Qed.

(** ** The normalizer *)

Lemma year_of_empty : year_of (JStr "") = Ok JNull.
Proof. reflexivity. Qed.

Lemma year_of_str (s : string) :
  s <> "" ->
  year_of (JStr s) =
  match PyStr.int (PyStr.split_dash_0 s) with
  | Some n => Ok (JInt n)
  | None => Raise ValueError
  end.
Proof. intros H. unfold year_of. rewrite truthy_str by exact H. reflexivity. Qed.

Lemma resolved_date_release (item : list (string * json)) (s : string) :
  Py.lookup item "release_date" = Some (JStr s) -> s <> "" ->
  resolved_date item = JStr s.
Proof.
  intros H Hs. unfold resolved_date, Py.or_.
  rewrite (get_of_lookup _ _ _ H), (truthy_str _ Hs). cbv iota.
  rewrite (truthy_str _ Hs). reflexivity.
Qed.

Lemma resolved_date_first_air (item : list (string * json)) (s : string) :
  empty_or_missing item "release_date" ->
  Py.lookup item "first_air_date" = Some (JStr s) -> s <> "" ->
  resolved_date item = JStr s.
Proof.
  intros Hr H Hs. unfold resolved_date, Py.or_.
  rewrite (empty_or_missing_falsy _ _ Hr). cbv iota.
  rewrite (get_of_lookup _ _ _ H), (truthy_str _ Hs). reflexivity.
Qed.

Lemma resolved_date_none (item : list (string * json)) :
  empty_or_missing item "release_date" ->
  empty_or_missing item "first_air_date" ->
  resolved_date item = JStr "".
Proof.
  intros Hr Hf. unfold resolved_date, Py.or_.
  rewrite (empty_or_missing_falsy _ _ Hr), (empty_or_missing_falsy _ _ Hf).
  reflexivity.
Qed.

(** C1.  The date is [release_date] when that is a non-empty string, else
    [first_air_date] when that is one, else empty.  On a non-empty date the
    normalizer returns the item whose [year] is [int] of the text before the
    first dash, and raises [ValueError] exactly when that text is no integer
    literal; on an empty date, and so whenever both fields are empty or
    missing, [year] is [None].  A [release_date] of 2021-05-04 gives 2021. *)
Theorem year_from_resolved_date (item : list (string * json)) :
  (forall s, Py.lookup item "release_date" = Some (JStr s) -> s <> "" ->
     resolved_date item = JStr s) /\
  (forall s, empty_or_missing item "release_date" ->
     Py.lookup item "first_air_date" = Some (JStr s) -> s <> "" ->
     resolved_date item = JStr s) /\
  (forall s, resolved_date item = JStr s -> s <> "" ->
     match PyStr.int (PyStr.split_dash_0 s) with
     | Some n => map_tmdb_item (JDict item) = Ok (JDict (canonical item (JInt n)))
     | None => map_tmdb_item (JDict item) = Raise ValueError
     end) /\
  (empty_or_missing item "release_date" ->
   empty_or_missing item "first_air_date" ->
   map_tmdb_item (JDict item) = Ok (JDict (canonical item JNull))) /\
  (Py.lookup item "release_date" = Some (JStr "2021-05-04") ->
   map_tmdb_item (JDict item) = Ok (JDict (canonical item (JInt 2021)))) /\
  (forall year, Py.lookup (canonical item year) "year" = Some year).
Proof.
  split; [exact (resolved_date_release item)|].
  split; [exact (resolved_date_first_air item)|].
  split; [|split; [|split]].
  - intros s Hd Hs. rewrite map_tmdb_item_eq, Hd, (year_of_str _ Hs).
    destruct (PyStr.int (PyStr.split_dash_0 s)); reflexivity.
  - intros Hr Hf. apply map_tmdb_item_ok.
    rewrite (resolved_date_none _ Hr Hf). exact year_of_empty.
  - intros H. apply map_tmdb_item_ok.
    rewrite (resolved_date_release _ _ H) by discriminate. reflexivity.
  - intros year. reflexivity.
Qed.

Lemma length_app_str (s t : string) :
  String.length (s ++ t) = (String.length s + String.length t)%nat.
Proof. induction s as [|c s IH]; simpl; [reflexivity|]. rewrite IH. reflexivity. Qed.

Lemma image_url_cases (size : string) (path : json) :
  (Py.truthy path = false /\ image_url size path = JNull) \/
  (Py.truthy path = true /\
   image_url size path = JStr ("https://image.tmdb.org" ++ "/t/p/" ++ size ++ fmt path)).
Proof. unfold image_url. destruct (Py.truthy path); auto. Qed.

Lemma image_url_not_bare (size p : string) : image_url size (JStr p) <> JStr p.
Proof.
  destruct (image_url_cases size (JStr p)) as [[_ ->]|[_ ->]]; [discriminate|].
  simpl fmt. intros H. injection H as H.
  apply (f_equal String.length) in H. simpl in H.
  rewrite length_app_str in H. lia.
Qed.

Lemma image_url_prefix (size : string) (path : json) (u : string) :
  image_url size path = JStr u ->
  String.prefix ("https://image.tmdb.org/t/p/" ++ size) u = true.
Proof.
  destruct (image_url_cases size path) as [[_ ->]|[_ ->]]; [discriminate|].
  intros H. injection H as <-. simpl.
  induction size as [|c size IH]; simpl.
  - destruct (fmt path); reflexivity.
  - destruct (ascii_dec c c) as [_|Hc]; [exact IH|contradiction].
Qed.

Lemma truthy_lookup (item : list (string * json)) (k : string) :
  Py.truthy (Py.get item k) = true -> Py.lookup item k = Some (Py.get item k).
Proof.
  unfold Py.get, Py.get_or. destruct (Py.lookup item k); [reflexivity|discriminate].
Qed.

(** C2.  In every item the normalizer returns, [poster] is [None] or the
    image base followed by [/t/p/w500] and the poster path, and [backdrop]
    is [None] or the base followed by [/t/p/w780] and the backdrop path; a
    string in either field starts with that absolute prefix, so it is never
    the empty string and never the path itself. *)
Theorem image_fields_url_or_absent (item out : list (string * json)) :
  map_tmdb_item (JDict item) = Ok (JDict out) ->
  (Py.lookup out "poster" = Some JNull \/
   exists path, Py.lookup item "poster_path" = Some path /\
     Py.lookup out "poster" =
       Some (JStr ("https://image.tmdb.org" ++ "/t/p/w500" ++ fmt path))) /\
  (Py.lookup out "backdrop" = Some JNull \/
   exists path, Py.lookup item "backdrop_path" = Some path /\
     Py.lookup out "backdrop" =
       Some (JStr ("https://image.tmdb.org" ++ "/t/p/w780" ++ fmt path))) /\
  (forall p, Py.lookup item "poster_path" = Some (JStr p) -> p <> "" ->
     Py.lookup out "poster" =
       Some (JStr ("https://image.tmdb.org" ++ "/t/p/w500" ++ p))) /\
  (forall p, Py.lookup item "backdrop_path" = Some (JStr p) -> p <> "" ->
     Py.lookup out "backdrop" =
       Some (JStr ("https://image.tmdb.org" ++ "/t/p/w780" ++ p))) /\
  (forall u, Py.lookup out "poster" = Some (JStr u) ->
     String.prefix "https://image.tmdb.org/t/p/w500" u = true /\ u <> "") /\
  (forall u, Py.lookup out "backdrop" = Some (JStr u) ->
     String.prefix "https://image.tmdb.org/t/p/w780" u = true /\ u <> "") /\
  (forall p, Py.lookup item "poster_path" = Some (JStr p) ->
     Py.lookup out "poster" <> Some (JStr p)) /\
  (forall p, Py.lookup item "backdrop_path" = Some (JStr p) ->
     Py.lookup out "backdrop" <> Some (JStr p)).
Proof.
  intros H. apply map_tmdb_item_inv in H.
  destruct H as (d & year & Hd & _ & Hout).
  injection Hd as <-. injection Hout as ->.
  change (Py.lookup (canonical item year) "poster")
    with (Some (image_url "w500" (Py.get item "poster_path"))).
  change (Py.lookup (canonical item year) "backdrop")
    with (Some (image_url "w780" (Py.get item "backdrop_path"))).
  split.
  { destruct (image_url_cases "w500" (Py.get item "poster_path")) as [[_ ->]|[Ht ->]];
      [left; reflexivity|right].
    exists (Py.get item "poster_path").
    split; [apply truthy_lookup; exact Ht|reflexivity]. }
  split.
  { destruct (image_url_cases "w780" (Py.get item "backdrop_path")) as [[_ ->]|[Ht ->]];
      [left; reflexivity|right].
    exists (Py.get item "backdrop_path").
    split; [apply truthy_lookup; exact Ht|reflexivity]. }
  split.
  { intros p Hp Hne. rewrite (get_of_lookup _ _ _ Hp).
    unfold image_url. rewrite (truthy_str _ Hne). reflexivity. }
  split.
  { intros p Hp Hne. rewrite (get_of_lookup _ _ _ Hp).
    unfold image_url. rewrite (truthy_str _ Hne). reflexivity. }
  split.
  { intros u H. injection H as H. split; [exact (image_url_prefix _ _ _ H)|].
    intros ->. destruct (image_url_cases "w500" (Py.get item "poster_path"))
      as [[_ E]|[_ E]]; rewrite E in H; discriminate. }
  split.
  { intros u H. injection H as H. split; [exact (image_url_prefix _ _ _ H)|].
    intros ->. destruct (image_url_cases "w780" (Py.get item "backdrop_path"))
      as [[_ E]|[_ E]]; rewrite E in H; discriminate. }
  split.
  { intros p Hp H. rewrite (get_of_lookup _ _ _ Hp) in H. injection H as H.
    exact (image_url_not_bare _ _ H). }
  intros p Hp H. rewrite (get_of_lookup _ _ _ Hp) in H. injection H as H.
  exact (image_url_not_bare _ _ H).
Qed.

Lemma resolved_title_title (item : list (string * json)) :
  Py.truthy (Py.get item "title") = true ->
  resolved_title item = Py.get item "title".
Proof.
  intros H. unfold resolved_title, Py.or_. rewrite H. cbv iota. rewrite H. reflexivity.
Qed.

Lemma resolved_title_name (item : list (string * json)) :
  Py.truthy (Py.get item "title") = false ->
  Py.truthy (Py.get item "name") = true ->
  resolved_title item = Py.get item "name".
Proof.
  intros Ht Hn. unfold resolved_title, Py.or_. rewrite Ht. cbv iota.
  rewrite Hn. reflexivity.
Qed.

Lemma resolved_title_default (item : list (string * json)) :
  Py.truthy (Py.get item "title") = false ->
  Py.truthy (Py.get item "name") = false ->
  resolved_title item = JStr "Untitled".
Proof.
  intros Ht Hn. unfold resolved_title, Py.or_. rewrite Ht. cbv iota.
  rewrite Hn. reflexivity.
Qed.

(** C3, amended.  The normalized title is the item's [title] field when
    that is present and true in the Python sense (for a string: not empty),
    else its [name] field under the same condition, else the literal
    [Untitled]; an item missing both fields is titled [Untitled]. *)
Theorem title_resolution (item out : list (string * json)) :
  map_tmdb_item (JDict item) = Ok (JDict out) ->
  Py.lookup out "title" =
    Some (if Py.truthy (Py.get item "title") then Py.get item "title"
          else if Py.truthy (Py.get item "name") then Py.get item "name"
          else JStr "Untitled") /\
  (forall s, Py.lookup item "title" = Some (JStr s) -> s <> "" ->
     Py.lookup out "title" = Some (JStr s)) /\
  (forall s, empty_or_missing item "title" ->
     Py.lookup item "name" = Some (JStr s) -> s <> "" ->
     Py.lookup out "title" = Some (JStr s)) /\
  (empty_or_missing item "title" -> empty_or_missing item "name" ->
     Py.lookup out "title" = Some (JStr "Untitled")) /\
  (Py.lookup item "title" = None -> Py.lookup item "name" = None ->
     Py.lookup out "title" = Some (JStr "Untitled")).
Proof.
  intros H. apply map_tmdb_item_inv in H.
  destruct H as (d & year & Hd & _ & Hout).
  injection Hd as <-. injection Hout as ->.
  change (Py.lookup (canonical item year) "title") with (Some (resolved_title item)).
  split.
  { destruct (Py.truthy (Py.get item "title")) eqn:Ht.
    - rewrite (resolved_title_title _ Ht). reflexivity.
    - destruct (Py.truthy (Py.get item "name")) eqn:Hn.
      + rewrite (resolved_title_name _ Ht Hn). reflexivity.
      + rewrite (resolved_title_default _ Ht Hn). reflexivity. }
  split.
  { intros s Hs Hne. rewrite resolved_title_title; rewrite (get_of_lookup _ _ _ Hs);
      [reflexivity|exact (truthy_str _ Hne)]. }
  split.
  { intros s Ht Hs Hne.
    rewrite (resolved_title_name _ (empty_or_missing_falsy _ _ Ht));
      rewrite (get_of_lookup _ _ _ Hs); [reflexivity|exact (truthy_str _ Hne)]. }
  split.
  { intros Ht Hn.
    rewrite (resolved_title_default _ (empty_or_missing_falsy _ _ Ht)
               (empty_or_missing_falsy _ _ Hn)). reflexivity. }
  intros Ht Hn.
  rewrite (resolved_title_default _ (empty_or_missing_falsy _ _ (or_introl Ht))
             (empty_or_missing_falsy _ _ (or_introl Hn))). reflexivity.
Qed.

(** C9.  The [id] of the item the normalizer returns is the [id] of the
    upstream record, unchanged; an integer identifier comes out as that
    integer. *)
Theorem id_passthrough (item out : list (string * json)) :
  map_tmdb_item (JDict item) = Ok (JDict out) ->
  Py.lookup out "id" = Some (Py.get item "id") /\
  (forall n, Py.lookup item "id" = Some (JInt n) ->
     Py.lookup out "id" = Some (JInt n)).
Proof.
  intros H. apply map_tmdb_item_inv in H.
  destruct H as (d & year & Hd & _ & Hout).
  injection Hd as <-. injection Hout as ->.
  split; [reflexivity|].
  intros n Hn. simpl. rewrite (get_of_lookup _ _ _ Hn). reflexivity.
Qed.

Ltac or_cases :=
  unfold Py.or_;
  repeat match goal with
  | |- context [Py.truthy (Py.get ?d ?k)] =>
      let E := fresh "E" in
      destruct (Py.truthy (Py.get d k)) eqn:E; cbv iota; rewrite ?E
  end;
  try reflexivity.

Lemma normalizer_reads_views (item item' : list (string * json)) :
  resolved_title item' = resolved_title item ->
  resolved_date item' = resolved_date item ->
  image_url "w500" (Py.get item' "poster_path")
    = image_url "w500" (Py.get item "poster_path") ->
  image_url "w780" (Py.get item' "backdrop_path")
    = image_url "w780" (Py.get item "backdrop_path") ->
  (forall k, In k passthrough_fields -> Py.get item' k = Py.get item k) ->
  map_tmdb_item (JDict item') = map_tmdb_item (JDict item).
Proof.
  intros Ht Hd Hp Hb Hk. rewrite !map_tmdb_item_eq, Hd.
  destruct (year_of (resolved_date item)) as [year|e]; [|reflexivity].
  simpl. unfold canonical. rewrite Ht, Hp, Hb.
  rewrite !Hk by (simpl; tauto). reflexivity.
Qed.

(** C10, amended.  For each of [title], [name], [release_date],
    [first_air_date], [poster_path] and [backdrop_path], an item in which
    the field is the empty string is normalized exactly as the item without
    the field: in the item returned an empty title has given way to [name]
    and then to [Untitled], an empty [release_date] to [first_air_date]
    (whose year is returned, or whose malformed text raises), an empty
    [poster_path] or [backdrop_path] to no poster or backdrop.  The five
    copied fields come out as they went in, so an empty string there stays
    an empty string. *)
Theorem empty_string_as_absent (item : list (string * json)) :
  (forall k, In k fallback_fields -> Py.lookup item k = Some (JStr "") ->
     map_tmdb_item (JDict item) = map_tmdb_item (JDict (Py.remove item k))) /\
  (Py.lookup item "title" = Some (JStr "") ->
     resolved_title item = Py.or_ (Py.get item "name") (JStr "Untitled")) /\
  (Py.lookup item "release_date" = Some (JStr "") ->
     resolved_date item = Py.or_ (Py.get item "first_air_date") (JStr "")) /\
  (forall year, Py.lookup item "poster_path" = Some (JStr "") ->
     Py.lookup (canonical item year) "poster" = Some JNull) /\
  (forall year, Py.lookup item "backdrop_path" = Some (JStr "") ->
     Py.lookup (canonical item year) "backdrop" = Some JNull) /\
  (forall out,
     map_tmdb_item (JDict item) = Ok (JDict out) ->
     (Py.lookup item "title" = Some (JStr "") ->
        (forall s, Py.lookup item "name" = Some (JStr s) -> s <> "" ->
           Py.lookup out "title" = Some (JStr s)) /\
        (empty_or_missing item "name" ->
           Py.lookup out "title" = Some (JStr "Untitled"))) /\
     (Py.lookup item "poster_path" = Some (JStr "") ->
        Py.lookup out "poster" = Some JNull) /\
     (Py.lookup item "backdrop_path" = Some (JStr "") ->
        Py.lookup out "backdrop" = Some JNull) /\
     (forall k, In k passthrough_fields ->
        (forall v, Py.lookup item k = Some v ->
           Py.lookup out (output_key k) = Some v) /\
        (Py.lookup item k = None -> Py.lookup out (output_key k) = Some JNull))) /\
  (Py.lookup item "release_date" = Some (JStr "") ->
   forall s, Py.lookup item "first_air_date" = Some (JStr s) -> s <> "" ->
     match PyStr.int (PyStr.split_dash_0 s) with
     | Some n =>
         exists out, map_tmdb_item (JDict item) = Ok (JDict out) /\
                     Py.lookup out "year" = Some (JInt n)
     | None => map_tmdb_item (JDict item) = Raise ValueError
     end) /\
  (Py.lookup item "release_date" = Some (JStr "") ->
   empty_or_missing item "first_air_date" ->
   exists out, map_tmdb_item (JDict item) = Ok (JDict out) /\
               Py.lookup out "year" = Some JNull).
Proof.
  split.
  { intros k Hk He. symmetry.
    simpl in Hk.
    destruct Hk as [<-|[<-|[<-|[<-|[<-|[<-|[]]]]]]];
      apply normalizer_reads_views;
      try (intros k' Hk'; simpl in Hk';
           destruct Hk' as [<-|[<-|[<-|[<-|[<-|[]]]]]];
           apply get_remove_other; discriminate);
      unfold resolved_title, resolved_date;
      rewrite ?get_remove_same;
      repeat rewrite get_remove_other by discriminate;
      rewrite ?(get_of_lookup _ _ _ He); or_cases. }
  split.
  { intros H. unfold resolved_title. rewrite (get_of_lookup _ _ _ H). reflexivity. }
  split.
  { intros H. unfold resolved_date. rewrite (get_of_lookup _ _ _ H). reflexivity. }
  split.
  { intros year H. simpl. rewrite (get_of_lookup _ _ _ H). reflexivity. }
  split.
  { intros year H. simpl. rewrite (get_of_lookup _ _ _ H). reflexivity. }
  split.
  { intros out H. apply map_tmdb_item_inv in H.
    destruct H as (d & year & Hd & _ & Hout).
    injection Hd as <-. injection Hout as ->.
    change (Py.lookup (canonical item year) "title") with (Some (resolved_title item)).
    split.
    { intros Ht.
      assert (Hf : Py.truthy (Py.get item "title") = false)
        by (rewrite (get_of_lookup _ _ _ Ht); reflexivity).
      split.
      - intros s Hs Hne. rewrite (resolved_title_name _ Hf);
          rewrite (get_of_lookup _ _ _ Hs); [reflexivity|exact (truthy_str _ Hne)].
      - intros Hn.
        rewrite (resolved_title_default _ Hf (empty_or_missing_falsy _ _ Hn)).
        reflexivity. }
    split.
    { intros H. cbn [canonical Py.lookup String.eqb Ascii.eqb Bool.eqb].
      rewrite (get_of_lookup _ _ _ H). reflexivity. }
    split.
    { intros H. cbn [canonical Py.lookup String.eqb Ascii.eqb Bool.eqb].
      rewrite (get_of_lookup _ _ _ H). reflexivity. }
    intros k Hk. simpl in Hk.
    destruct Hk as [<-|[<-|[<-|[<-|[<-|[]]]]]];
      (split;
       [intros v Hv; rewrite <- (get_of_lookup _ _ _ Hv); reflexivity
       |intros Hn; rewrite <- (get_of_missing _ _ Hn); reflexivity]). }
  split.
  { intros Hr s Hs Hne.
    pose proof (resolved_date_first_air item s (or_intror Hr) Hs Hne) as Hd.
    rewrite map_tmdb_item_eq, Hd, (year_of_str _ Hne).
    destruct (PyStr.int (PyStr.split_dash_0 s)) as [n|]; [|reflexivity].
    exists (canonical item (JInt n)). split; reflexivity. }
  intros Hr Hf.
  exists (canonical item JNull). split; [|reflexivity].
  apply map_tmdb_item_ok.
  rewrite (resolved_date_none _ (or_intror Hr) Hf). exact year_of_empty.
Qed.

(** ** The provider client *)

Lemma get_tmdb_key_unset :
  key_unset ->
  get_tmdb_key = Raise (HTTPException 500 "TMDB_API_KEY not set in environment").
Proof. unfold get_tmdb_key. intros [-> | ->]; reflexivity. Qed.

Lemma get_tmdb_key_set (key : string) :
  getenv "TMDB_API_KEY" = Some key -> key <> "" -> get_tmdb_key = Ok key.
Proof.
  unfold get_tmdb_key. intros -> Hne.
  destruct (String.eqb key "") eqn:E; [|reflexivity].
  apply String.eqb_eq in E. contradiction.
Qed.

Lemma get_tmdb_key_inv (key : string) :
  get_tmdb_key = Ok key -> getenv "TMDB_API_KEY" = Some key /\ key <> "".
Proof.
  unfold get_tmdb_key. destruct (getenv "TMDB_API_KEY") as [k|]; [|discriminate].
  destruct (String.eqb k "") eqn:E; [discriminate|].
  intros H. injection H as <-. split; [reflexivity|].
  intros ->. discriminate.
Qed.

Lemma tmdb_get_unset (path : string) (params : option (list (string * json)))
      (log : list request) :
  key_unset ->
  tmdb_get path params log =
  (Raise (HTTPException 500 "TMDB_API_KEY not set in environment"), log).
Proof.
  intros H. unfold tmdb_get, bind, lift. rewrite (get_tmdb_key_unset H). reflexivity.
Qed.

Lemma tmdb_get_set (key path : string) (params : option (list (string * json)))
      (log : list request) :
  getenv "TMDB_API_KEY" = Some key -> key <> "" ->
  tmdb_get path params log =
  (answer (requests_get (outbound key path params)),
   (log ++ [outbound key path params])%list).
Proof.
  intros Hk Hne. unfold tmdb_get, bind, lift. rewrite (get_tmdb_key_set _ Hk Hne).
  fold (outbound key path params). unfold answer.
  destruct (requests_get (outbound key path params)) as [e|resp]; [reflexivity|].
  destruct (negb (status_code resp =? 200)); [reflexivity|].
  destruct (json_body resp); reflexivity.
Qed.

Lemma tmdb_get_inv (path : string) (params : option (list (string * json)))
      (log log' : list request) (data : json) :
  tmdb_get path params log = (Ok data, log') ->
  exists key resp,
    getenv "TMDB_API_KEY" = Some key /\ key <> "" /\
    requests_get (outbound key path params) = Responded resp /\
    status_code resp = 200 /\ json_body resp = inr data /\
    log' = (log ++ [outbound key path params])%list.
Proof.
  intros H. destruct get_tmdb_key as [key|e] eqn:Hkey.
  - apply get_tmdb_key_inv in Hkey. destruct Hkey as [Hk Hne].
    rewrite (tmdb_get_set _ _ _ _ Hk Hne) in H. injection H as Ha <-.
    exists key. unfold answer in Ha.
    destruct (requests_get (outbound key path params)) as [e|resp]; [discriminate|].
    exists resp. destruct (status_code resp =? 200) eqn:Hs; [|discriminate].
    simpl in Ha. destruct (json_body resp) as [e|d]; [discriminate|].
    injection Ha as ->. apply Z.eqb_eq in Hs. auto 10.
  - unfold tmdb_get, bind, lift in H. rewrite Hkey in H. discriminate.
Qed.

Lemma bind_raise {A B} (c : io A) (k : A -> io B) (log log' : list request) (e : exn) :
  c log = (Raise e, log') -> bind c k log = (Raise e, log').
Proof. intros H. unfold bind. rewrite H. reflexivity. Qed.

Lemma bind_ok {A B} (c : io A) (k : A -> io B) (log log' : list request) (a : A) :
  c log = (Ok a, log') -> bind c k log = k a log'.
Proof. intros H. unfold bind. rewrite H. reflexivity. Qed.

Lemma bind_inv {A B} (c : io A) (k : A -> io B) (log log' : list request) (b : B) :
  bind c k log = (Ok b, log') ->
  exists a log1, c log = (Ok a, log1) /\ k a log1 = (Ok b, log').
Proof.
  unfold bind. destruct (c log) as [[a|e] log1]; [|discriminate].
  intros H. exists a, log1. auto.
Qed.

Lemma strip_nonblank (query : string) :
  PyStr.strip query <> "" ->
  negb (Py.truthy (JStr (PyStr.strip query))) = false.
Proof. intros H. rewrite (truthy_str _ H). reflexivity. Qed.

Lemma strip_blank_rejected (query : string) :
  PyStr.strip query = "" ->
  negb (Py.truthy (JStr (PyStr.strip query))) = true.
Proof. intros ->. reflexivity. Qed.

Lemma relays_of_raise (c : io json) (log : list request) (resp : response) :
  fst (c log) = Raise (HTTPException (status_code resp) (text resp)) ->
  relays c log resp.
Proof.
  intros H. split; [exact H|].
  split; intros Hb; exists (HTTPException (status_code resp) (text resp));
    (split; [exact H|]); unfold respond_exn, http_exception_handler;
    rewrite Hb; reflexivity.
Qed.

(** C4, amended.  With a key configured, when the provider answers the
    call with a status outside 200..299, [tmdb_get] raises the HTTP error
    whose status is the provider's status and whose detail is the response
    text as received, and each of the three handlers ends with that same
    error.  The caller is answered with the provider's status and, where
    the status allows a body, with the JSON object whose one key [detail]
    holds the response text: the provider's body inside a string, not the
    provider's body itself. *)
Theorem upstream_error_relayed (key : string) (resp : response) :
  getenv "TMDB_API_KEY" = Some key -> key <> "" ->
  ~ (200 <= status_code resp < 300) ->
  (forall path params log,
     requests_get (outbound key path params) = Responded resp ->
     tmdb_get path params log =
     (Raise (HTTPException (status_code resp) (text resp)),
      (log ++ [outbound key path params])%list)) /\
  (forall media_type time_window page log,
     requests_get (outbound key (trending_path media_type time_window)
                            (Some [("page", JInt page)])) = Responded resp ->
     fst (tmdb_trending media_type time_window page log) =
     Raise (HTTPException (status_code resp) (text resp))) /\
  (forall query page type log,
     PyStr.strip query <> "" ->
     requests_get (outbound key (search_path type)
                            (Some (search_params query page))) = Responded resp ->
     fst (tmdb_search query page type log) =
     Raise (HTTPException (status_code resp) (text resp))) /\
  (forall movie_id log,
     requests_get (outbound key (movie_path movie_id) (Some movie_params))
       = Responded resp ->
     fst (tmdb_movie_details movie_id log) =
     Raise (HTTPException (status_code resp) (text resp))) /\
  (forall media_type time_window page log,
     requests_get (outbound key (trending_path media_type time_window)
                            (Some [("page", JInt page)])) = Responded resp ->
     relays (tmdb_trending media_type time_window page) log resp) /\
  (forall query page type log,
     PyStr.strip query <> "" ->
     requests_get (outbound key (search_path type)
                            (Some (search_params query page))) = Responded resp ->
     relays (tmdb_search query page type) log resp) /\
  (forall movie_id log,
     requests_get (outbound key (movie_path movie_id) (Some movie_params))
       = Responded resp ->
     relays (tmdb_movie_details movie_id) log resp).
Proof.
  intros Hk Hne Hs.
  assert (Hget : forall path params log,
     requests_get (outbound key path params) = Responded resp ->
     tmdb_get path params log =
     (Raise (HTTPException (status_code resp) (text resp)),
      (log ++ [outbound key path params])%list)).
  { intros path params log Hr. rewrite (tmdb_get_set _ _ _ _ Hk Hne), Hr.
    unfold answer. destruct (status_code resp =? 200) eqn:E; [|reflexivity].
    apply Z.eqb_eq in E. lia. }
  split; [exact Hget|]. split; [|split; [|split; [|split; [|split]]]].
  - intros media_type time_window page log Hr. unfold tmdb_trending.
    erewrite bind_raise by (apply Hget; exact Hr). reflexivity.
  - intros query page type log Hq Hr. unfold tmdb_search.
    rewrite (strip_nonblank _ Hq).
    erewrite bind_raise by (apply Hget; exact Hr). reflexivity.
  - intros movie_id log Hr. unfold tmdb_movie_details.
    erewrite bind_raise by (apply Hget; exact Hr). reflexivity.
  - intros media_type time_window page log Hr. apply relays_of_raise.
    unfold tmdb_trending.
    erewrite bind_raise by (apply Hget; exact Hr). reflexivity.
  - intros query page type log Hq Hr. apply relays_of_raise. unfold tmdb_search.
    rewrite (strip_nonblank _ Hq).
    erewrite bind_raise by (apply Hget; exact Hr). reflexivity.
  - intros movie_id log Hr. apply relays_of_raise. unfold tmdb_movie_details.
    erewrite bind_raise by (apply Hget; exact Hr). reflexivity.
Qed.

(** C5.  When [TMDB_API_KEY] is unset or empty, every call of [tmdb_get]
    raises the HTTP error of status 500, a server fault, and leaves the log
    of outbound calls as it was: no request is issued.  The handlers end
    with that error, the log untouched. *)
Theorem missing_key_is_server_fault :
  key_unset ->
  (forall path params log,
     tmdb_get path params log =
     (Raise (HTTPException 500 "TMDB_API_KEY not set in environment"), log)) /\
  (forall media_type time_window page log,
     tmdb_trending media_type time_window page log =
     (Raise (HTTPException 500 "TMDB_API_KEY not set in environment"), log)) /\
  (forall query page type log,
     PyStr.strip query <> "" ->
     tmdb_search query page type log =
     (Raise (HTTPException 500 "TMDB_API_KEY not set in environment"), log)) /\
  (forall movie_id log,
     tmdb_movie_details movie_id log =
     (Raise (HTTPException 500 "TMDB_API_KEY not set in environment"), log)).
Proof.
  intros H. split; [intros; apply tmdb_get_unset; exact H|]. split; [|split].
  - intros. unfold tmdb_trending. apply bind_raise, tmdb_get_unset, H.
  - intros query page type log Hq. unfold tmdb_search.
    rewrite (strip_nonblank _ Hq). apply bind_raise, tmdb_get_unset, H.
  - intros. unfold tmdb_movie_details. apply bind_raise, tmdb_get_unset, H.
Qed.

(** C6.  A search whose query is empty or made of whitespace only raises
    the HTTP error of status 400, a client error, whatever the page, the
    type and the configuration, and leaves the log of outbound calls as it
    was: no upstream call is made. *)
Theorem blank_query_rejected (query : string) (page : Z) (type : string)
        (log : list request) :
  (forall c, In c (list_ascii_of_string query) -> PyStr.isspace c = true) ->
  PyStr.strip query = "" /\
  tmdb_search query page type log =
    (Raise (HTTPException 400 "Query is required"), log).
Proof.
  intros H. pose proof (strip_blank _ H) as Hs. split; [exact Hs|].
  unfold tmdb_search. rewrite (strip_blank_rejected _ Hs). reflexivity.
Qed.

(** ** The handlers *)

Lemma tmdb_trending_eq (media_type time_window : string) (page : Z) :
  tmdb_trending media_type time_window page =
  bind (tmdb_get (trending_path media_type time_window) (Some [("page", JInt page)]))
       (fun data => lift (listing data)).
Proof. reflexivity. Qed.

Lemma tmdb_search_eq (query : string) (page : Z) (type : string) :
  PyStr.strip query <> "" ->
  tmdb_search query page type =
  bind (tmdb_get (search_path type) (Some (search_params query page)))
       (fun data => lift (listing data)).
Proof. intros H. unfold tmdb_search. rewrite (strip_nonblank _ H). reflexivity. Qed.

Lemma tmdb_movie_details_eq (movie_id : Z) :
  tmdb_movie_details movie_id =
  bind (tmdb_get (movie_path movie_id) (Some movie_params))
       (fun data => lift (detail data)).
Proof. reflexivity. Qed.

Lemma tmdb_search_ok_nonblank (query : string) (page : Z) (type : string)
      (log log' : list request) (v : json) :
  tmdb_search query page type log = (Ok v, log') -> PyStr.strip query <> "".
Proof.
  intros H Hs. unfold tmdb_search in H. rewrite (strip_blank_rejected _ Hs) in H.
  discriminate.
Qed.

Lemma listing_ok (data : list (string * json)) (items results : list json) :
  Py.iter (Py.get_or data "results" (JList [])) = Ok items ->
  rmap map_tmdb_item items = Ok results ->
  listing (JDict data) = Ok (envelope data results).
Proof. intros Hi Hr. unfold listing. simpl. rewrite Hi. simpl. rewrite Hr. reflexivity. Qed.

Lemma listing_inv (data v : json) :
  listing data = Ok v ->
  exists d items results,
    data = JDict d /\
    Py.iter (Py.get_or d "results" (JList [])) = Ok items /\
    rmap map_tmdb_item items = Ok results /\
    v = envelope d results.
Proof.
  unfold listing. destruct data as [| | | | | |d]; try discriminate. simpl.
  destruct (Py.iter (Py.get_or d "results" (JList []))) as [items|e] eqn:Hi;
    [|discriminate]. simpl.
  destruct (rmap map_tmdb_item items) as [results|e] eqn:Hr; [|discriminate]. simpl.
  intros H. injection H as <-. exists d, items, results. auto.
Qed.

Lemma iter_missing_results (data : list (string * json)) :
  Py.lookup data "results" = None ->
  Py.iter (Py.get_or data "results" (JList [])) = Ok [].
Proof. intros H. unfold Py.get_or. rewrite H. reflexivity. Qed.

Lemma iter_results_array (data : list (string * json)) (items : list json) :
  Py.lookup data "results" = Some (JList items) ->
  Py.iter (Py.get_or data "results" (JList [])) = Ok items.
Proof. intros H. unfold Py.get_or. rewrite H. reflexivity. Qed.

Lemma listing_contract_holds (handler : io json) (path : string)
      (params : list (string * json)) :
  handler = bind (tmdb_get path (Some params)) (fun data => lift (listing data)) ->
  listing_contract handler path params.
Proof.
  intros ->. split; [|split].
  - intros log log' v H. apply bind_inv in H. destruct H as (data & log1 & Hg & Hl).
    unfold lift in Hl. injection Hl as Hl <-.
    apply listing_inv in Hl. destruct Hl as (d & items & results & -> & Hi & Hr & ->).
    exists d, items, results. split; [exact Hg|]. split; [exact Hi|].
    split; [apply rmap_Forall2; exact Hr|]. split; [reflexivity|]. split.
    + intros l Hl. rewrite (iter_results_array _ _ Hl) in Hi. injection Hi as <-.
      reflexivity.
    + intros Hn. rewrite (iter_missing_results _ Hn) in Hi. injection Hi as <-.
      simpl in Hr. injection Hr as <-. reflexivity.
  - intros log log' data items results Hg Hl Hr.
    rewrite (bind_ok _ _ _ _ _ Hg). unfold lift.
    rewrite (listing_ok data items results); [reflexivity| |].
    + exact (iter_results_array _ _ Hl).
    + apply rmap_Forall2. exact Hr.
  - intros log log' data Hg Hn.
    rewrite (bind_ok _ _ _ _ _ Hg). unfold lift.
    rewrite (listing_ok data [] []); [reflexivity| |reflexivity].
    exact (iter_missing_results _ Hn).
Qed.

(** C7.  A trending or search request that succeeds returns the envelope
    of [page], [total_pages] and [results], where [results] holds the
    normalizer's result for every element of the upstream [results], in
    order; an upstream [results] array whose elements all normalize does
    give that envelope; and a payload without [results] gives the envelope
    with the empty list. *)
Theorem listing_envelope :
  (forall media_type time_window page,
     listing_contract (tmdb_trending media_type time_window page)
       (trending_path media_type time_window) [("page", JInt page)]) /\
  (forall query page type,
     PyStr.strip query <> "" ->
     listing_contract (tmdb_search query page type)
       (search_path type) (search_params query page)) /\
  (forall query page type log log' v,
     tmdb_search query page type log = (Ok v, log') -> PyStr.strip query <> "").
Proof.
  split; [|split].
  - intros. apply listing_contract_holds, tmdb_trending_eq.
  - intros query page type Hq. apply listing_contract_holds, tmdb_search_eq, Hq.
  - exact tmdb_search_ok_nonblank.
Qed.

Lemma update_canonical (item : list (string * json)) (year : json)
      (data : list (string * json)) (videos : json) :
  Py.update (canonical item year) (detail_fields data videos) =
  (canonical item year ++ detail_fields data videos)%list.
Proof. reflexivity. Qed.

Lemma detail_ok (data : list (string * json)) (year videos : json) :
  year_of (resolved_date data) = Ok year ->
  videos_of data = Ok videos ->
  detail (JDict data) =
  Ok (JDict (canonical data year ++ detail_fields data videos)%list).
Proof.
  intros Hy Hv. unfold detail. rewrite (map_tmdb_item_ok _ _ Hy). simpl.
  unfold videos_of in Hv. rewrite Hv. simpl. reflexivity.
Qed.

Lemma detail_inv (data v : json) :
  detail data = Ok v ->
  exists d year videos,
    data = JDict d /\ year_of (resolved_date d) = Ok year /\
    videos_of d = Ok videos /\
    v = JDict (canonical d year ++ detail_fields d videos)%list.
Proof.
  unfold detail.
  destruct (map_tmdb_item data) as [base|e] eqn:Hm; [|discriminate].
  apply map_tmdb_item_inv in Hm. destruct Hm as (d & year & -> & Hy & ->).
  simpl. fold (videos_of d).
  destruct (videos_of d) as [videos|e] eqn:Hv; [|discriminate]. simpl.
  intros H. injection H as <-. exists d, year, videos. auto.
Qed.

Lemma videos_of_total (data : list (string * json)) :
  videos_missing_or_object data -> exists videos, videos_of data = Ok videos.
Proof.
  unfold videos_of, Py.get_or. intros [->|[vd ->]]; eexists; reflexivity.
Qed.

Lemma videos_of_missing (data : list (string * json)) :
  Py.lookup data "videos" = None -> videos_of data = Ok (JList []).
Proof. unfold videos_of, Py.get_or. intros ->. reflexivity. Qed.

Lemma videos_of_no_results (data vd : list (string * json)) :
  Py.lookup data "videos" = Some (JDict vd) -> Py.lookup vd "results" = None ->
  videos_of data = Ok (JList []).
Proof. unfold videos_of, Py.get_or. intros ->. simpl. unfold Py.get_or. intros ->. reflexivity. Qed.

Lemma videos_of_results (data vd : list (string * json)) (l : json) :
  Py.lookup data "videos" = Some (JDict vd) -> Py.lookup vd "results" = Some l ->
  videos_of data = Ok l.
Proof. unfold videos_of, Py.get_or. intros ->. simpl. unfold Py.get_or. intros ->. reflexivity. Qed.

Lemma lookup_app_l (d1 d2 : list (string * json)) (k : string) (v : json) :
  Py.lookup d1 k = Some v -> Py.lookup (d1 ++ d2)%list k = Some v.
Proof.
  induction d1 as [|[k0 v0] d1 IH]; simpl; [discriminate|].
  destruct (String.eqb k0 k); [intros H; exact H|exact IH].
Qed.

Lemma lookup_app_r (d1 d2 : list (string * json)) (k : string) :
  Py.lookup d1 k = None -> Py.lookup (d1 ++ d2)%list k = Py.lookup d2 k.
Proof.
  induction d1 as [|[k0 v0] d1 IH]; simpl; [reflexivity|].
  destruct (String.eqb k0 k); [discriminate|exact IH].
Qed.

Lemma lookup_detail_fields_other (data : list (string * json)) (videos : json)
      (k : string) :
  ~ In k detail_keys -> Py.lookup (detail_fields data videos) k = None.
Proof.
  intros H. unfold detail_keys in H. simpl in H.
  unfold detail_fields. cbn [Py.lookup].
  repeat match goal with
  | |- context [String.eqb ?a k] =>
      let E := fresh "E" in
      destruct (String.eqb a k) eqn:E;
      [apply String.eqb_eq in E; exfalso; apply H; rewrite <- E;
       repeat (try (left; reflexivity); right)|]
  end.
  reflexivity.
Qed.

Lemma detail_shape_holds (data : list (string * json)) (year videos : json) :
  videos_of data = Ok videos ->
  detail_shape data (canonical data year)
    (canonical data year ++ detail_fields data videos)%list.
Proof.
  intros Hv.
  assert (Hcopy : forall k default,
            Py.lookup (canonical data year ++ detail_fields data videos)%list k
              = Some (Py.get_or data k default) ->
            copied data (canonical data year ++ detail_fields data videos)%list
                   k default).
  { intros k default Hk. unfold Py.get_or in Hk. split.
    - intros x Hx. rewrite Hx in Hk. exact Hk.
    - intros Hn. rewrite Hn in Hk. exact Hk. }
  split; [reflexivity|]. split.
  { intros k Hk.
    destruct (Py.lookup (canonical data year) k) as [v|] eqn:Hb.
    - exact (lookup_app_l _ _ _ _ Hb).
    - rewrite (lookup_app_r _ _ _ Hb).
      exact (lookup_detail_fields_other _ _ _ Hk). }
  split; [apply Hcopy; reflexivity|].
  split; [apply Hcopy; reflexivity|].
  split.
  { change (Py.lookup (canonical data year ++ detail_fields data videos)%list "videos")
      with (Some videos).
    split.
    - intros Hn. rewrite (videos_of_missing _ Hn) in Hv. injection Hv as <-.
      reflexivity.
    - intros vd Hvd. split.
      + intros l Hl. rewrite (videos_of_results _ _ _ Hvd Hl) in Hv.
        injection Hv as <-. reflexivity.
      + intros Hn. rewrite (videos_of_no_results _ _ Hvd Hn) in Hv.
        injection Hv as <-. reflexivity. }
  split; [apply Hcopy; reflexivity|].
  split; [apply Hcopy; reflexivity|].
  split; apply Hcopy; reflexivity.
Qed.

(** C8.  A detail request that succeeds returns the normalized base item
    followed by [genres], [runtime], [videos], [credits], [homepage],
    [status] and the raw [release_date] of the payload: each of the seven is
    the payload's own entry when the payload has one ([videos] being the
    [results] of the payload's [videos] object), and the base item's
    entries are untouched.  Whenever the base item normalizes and [videos]
    is missing or an object the request does succeed, whichever of the
    seven entries are missing, and a missing one comes out as its default:
    the empty list for [genres] and [videos], the empty object for
    [credits], [None] for the scalars. *)
Theorem detail_merge_and_defaults (movie_id : Z) (log log' : list request) :
  (forall v,
     tmdb_movie_details movie_id log = (Ok v, log') ->
     exists data year videos,
       tmdb_get (movie_path movie_id) (Some movie_params) log
         = (Ok (JDict data), log') /\
       map_tmdb_item (JDict data) = Ok (JDict (canonical data year)) /\
       videos_of data = Ok videos /\
       v = JDict (canonical data year ++ detail_fields data videos)%list) /\
  (forall data base,
     tmdb_get (movie_path movie_id) (Some movie_params) log
       = (Ok (JDict data), log') ->
     map_tmdb_item (JDict data) = Ok base ->
     videos_missing_or_object data ->
     exists out,
       tmdb_movie_details movie_id log = (Ok (JDict out), log') /\
       (Py.lookup data "genres" = None -> Py.lookup out "genres" = Some (JList [])) /\
       (Py.lookup data "runtime" = None -> Py.lookup out "runtime" = Some JNull) /\
       (Py.lookup data "videos" = None -> Py.lookup out "videos" = Some (JList [])) /\
       (forall vd, Py.lookup data "videos" = Some (JDict vd) ->
          Py.lookup vd "results" = None -> Py.lookup out "videos" = Some (JList [])) /\
       (Py.lookup data "credits" = None -> Py.lookup out "credits" = Some (JDict [])) /\
       (Py.lookup data "homepage" = None -> Py.lookup out "homepage" = Some JNull) /\
       (Py.lookup data "status" = None -> Py.lookup out "status" = Some JNull) /\
       (Py.lookup data "release_date" = None ->
          Py.lookup out "release_date" = Some JNull)) /\
  (forall v,
     tmdb_movie_details movie_id log = (Ok v, log') ->
     exists data base out,
       tmdb_get (movie_path movie_id) (Some movie_params) log
         = (Ok (JDict data), log') /\
       map_tmdb_item (JDict data) = Ok (JDict base) /\
       v = JDict out /\ detail_shape data base out) /\
  (forall data base,
     tmdb_get (movie_path movie_id) (Some movie_params) log
       = (Ok (JDict data), log') ->
     map_tmdb_item (JDict data) = Ok (JDict base) ->
     videos_missing_or_object data ->
     exists out,
       tmdb_movie_details movie_id log = (Ok (JDict out), log') /\
       detail_shape data base out).
Proof.
  rewrite tmdb_movie_details_eq. split; [|split; [|split]].
  - intros v H. apply bind_inv in H. destruct H as (data & log1 & Hg & Hd).
    unfold lift in Hd. injection Hd as Hd <-.
    apply detail_inv in Hd. destruct Hd as (d & year & videos & -> & Hy & Hv & ->).
    exists d, year, videos. split; [exact Hg|]. split; [|split].
    + exact (map_tmdb_item_ok _ _ Hy).
    + exact Hv.
    + reflexivity.
  - intros data base Hg Hm Hvid.
    apply map_tmdb_item_inv in Hm. destruct Hm as (d & year & Hd & Hy & _).
    injection Hd as <-.
    destruct (videos_of_total _ Hvid) as [videos Hv].
    exists (canonical data year ++ detail_fields data videos)%list.
    split.
    { rewrite (bind_ok _ _ _ _ _ Hg). unfold lift.
      rewrite (detail_ok _ _ _ Hy Hv). reflexivity. }
    simpl. unfold Py.get, Py.get_or.
    split; [intros ->; reflexivity|]. split; [intros ->; reflexivity|].
    split. { intros Hn. rewrite (videos_of_missing _ Hn) in Hv. injection Hv as <-.
             reflexivity. }
    split. { intros vd H1 H2. rewrite (videos_of_no_results _ _ H1 H2) in Hv.
             injection Hv as <-. reflexivity. }
    split; [intros ->; reflexivity|]. split; [intros ->; reflexivity|].
    split; intros ->; reflexivity.
  - intros v H. apply bind_inv in H. destruct H as (data & log1 & Hg & Hd).
    unfold lift in Hd. injection Hd as Hd <-.
    apply detail_inv in Hd. destruct Hd as (d & year & videos & -> & Hy & Hv & ->).
    exists d, (canonical d year), (canonical d year ++ detail_fields d videos)%list.
    split; [exact Hg|]. split; [exact (map_tmdb_item_ok _ _ Hy)|].
    split; [reflexivity|exact (detail_shape_holds _ _ _ Hv)].
  - intros data base Hg Hm Hvid.
    apply map_tmdb_item_inv in Hm. destruct Hm as (d & year & Hd & Hy & Hb).
    injection Hd as <-. injection Hb as ->.
    destruct (videos_of_total _ Hvid) as [videos Hv].
    exists (canonical data year ++ detail_fields data videos)%list.
    split; [|exact (detail_shape_holds _ _ _ Hv)].
    rewrite (bind_ok _ _ _ _ _ Hg). unfold lift.
    rewrite (detail_ok _ _ _ Hy Hv). reflexivity.
Qed.

(** ** More about the Python layer *)

Lemma lookup_setitem_same (d : list (string * json)) (k : string) (v : json) :
  Py.lookup (Py.setitem d k v) k = Some v.
Proof.
  induction d as [|[k0 v0] d IH]; simpl.
  - rewrite String.eqb_refl. reflexivity.
  - destruct (String.eqb k0 k) eqn:E; simpl.
    + rewrite String.eqb_refl. reflexivity.
    + rewrite E. exact IH.
Qed.

Lemma lookup_setitem_other (d : list (string * json)) (k k' : string) (v : json) :
  k <> k' -> Py.lookup (Py.setitem d k v) k' = Py.lookup d k'.
Proof.
  intros Hne. induction d as [|[k0 v0] d IH]; simpl.
  - destruct (String.eqb k k') eqn:E; [|reflexivity].
    apply String.eqb_eq in E. contradiction.
  - destruct (String.eqb k0 k) eqn:E; simpl.
    + apply String.eqb_eq in E. subst k0.
      destruct (String.eqb k k') eqn:E'; [|reflexivity].
      apply String.eqb_eq in E'. contradiction.
    + rewrite IH. reflexivity.
Qed.

Lemma get_setitem_other (d : list (string * json)) (k k' : string) (v : json) :
  k <> k' -> Py.get (Py.setitem d k v) k' = Py.get d k'.
Proof.
  intros H. unfold Py.get, Py.get_or. rewrite lookup_setitem_other by exact H.
  reflexivity.
Qed.

Lemma isdigit_val (c : ascii) : PyStr.isdigit c = true -> 0 <= PyStr.digit_val c <= 9.
Proof.
  unfold PyStr.isdigit, PyStr.digit_val. cbv zeta. intros H.
  apply andb_true_iff in H. destruct H as [H1 H2].
  apply Z.leb_le in H1, H2. lia.
Qed.

Lemma int_digits_nonneg (s : string) :
  (forall acc n, 0 <= acc -> PyStr.int_digits acc s = Some n -> 0 <= n) /\
  (forall c acc n, 0 <= acc -> PyStr.int_digits acc (String c s) = Some n -> 0 <= n).
Proof.
  induction s as [|d s [IH1 IH2]].
  - split.
    + cbn [PyStr.int_digits]. intros acc n Ha H. injection H as <-. exact Ha.
    + intros c acc n Ha. cbn [PyStr.int_digits].
      destruct (PyStr.isdigit c) eqn:Hc.
      * intros H.
        assert (Hn : n = 10 * acc + PyStr.digit_val c)
          by (injection H as <-; reflexivity).
        apply isdigit_val in Hc. lia.
      * destruct (Ascii.eqb c "_"); discriminate.
  - split; [exact (IH2 d)|].
    intros c acc n Ha. cbn [PyStr.int_digits].
    destruct (PyStr.isdigit c) eqn:Hc.
    + apply isdigit_val in Hc. apply IH2. lia.
    + destruct (Ascii.eqb c "_"); [|discriminate].
      destruct (PyStr.isdigit d) eqn:Hd; [|discriminate].
      apply isdigit_val in Hd. apply IH1. lia.
Qed.

Lemma int_unsigned_nonneg (s : string) (n : Z) :
  PyStr.int_unsigned s = Some n -> 0 <= n.
Proof.
  destruct s as [|c s]; simpl; [discriminate|].
  destruct (PyStr.isdigit c) eqn:Hc; [|discriminate].
  apply isdigit_val in Hc. apply (proj1 (int_digits_nonneg s)). lia.
Qed.

Lemma lstrip_incl (p : ascii -> bool) (s : string) (c : ascii) :
  In c (list_ascii_of_string (PyStr.lstrip_by p s)) -> In c (list_ascii_of_string s).
Proof.
  induction s as [|a s IH]; simpl; [intros H; exact H|].
  destruct (p a); simpl; [intros H; right; exact (IH H)|intros H; exact H].
Qed.

Lemma rstrip_incl (p : ascii -> bool) (s : string) (c : ascii) :
  In c (list_ascii_of_string (PyStr.rstrip_by p s)) -> In c (list_ascii_of_string s).
Proof.
  induction s as [|a s IH]; simpl; [intros H; exact H|].
  destruct (PyStr.rstrip_by p s) as [|b r].
  - destruct (p a); simpl; [intros []|intros [H|[]]; left; exact H].
  - simpl. intros [H|H]; [left; exact H|right; apply IH; exact H].
Qed.

Lemma int_cases (s : string) :
  PyStr.int s =
  match PyStr.rstrip_by PyStr.int_blank (PyStr.lstrip_by PyStr.int_blank s) with
  | String c r =>
      if Ascii.eqb c "+" then PyStr.int_unsigned r
      else if Ascii.eqb c "-" then option_map Z.opp (PyStr.int_unsigned r)
      else PyStr.int_unsigned (String c r)
  | EmptyString => None
  end.
Proof.
  unfold PyStr.int.
  destruct (PyStr.rstrip_by PyStr.int_blank (PyStr.lstrip_by PyStr.int_blank s))
    as [|c r]; [reflexivity|].
  destruct c as [[] [] [] [] [] [] [] []]; reflexivity.
Qed.

Lemma int_no_dash_nonneg (s : string) (n : Z) :
  no_dash s -> PyStr.int s = Some n -> 0 <= n.
Proof.
  intros Hs. rewrite int_cases.
  destruct (PyStr.rstrip_by PyStr.int_blank (PyStr.lstrip_by PyStr.int_blank s))
    as [|c r] eqn:Ht; [discriminate|].
  destruct (Ascii.eqb c "+"); [apply int_unsigned_nonneg|].
  destruct (Ascii.eqb c "-") eqn:Hc; [|apply int_unsigned_nonneg].
  apply Ascii.eqb_eq in Hc. subst c. exfalso.
  apply (Hs "-"%char); [|reflexivity].
  apply (lstrip_incl PyStr.int_blank), (rstrip_incl PyStr.int_blank).
  rewrite Ht. left. reflexivity.
Qed.

Lemma split_dash_0_no_dash (s : string) : no_dash (PyStr.split_dash_0 s).
Proof.
  induction s as [|a s IH]; intros c; simpl; [intros []|].
  destruct (Ascii.eqb a "-") eqn:E; simpl; [intros []|].
  intros [<-|H]; [|exact (IH c H)].
  intros ->. discriminate.
Qed.

Lemma split_dash_0_app (s t : string) :
  no_dash s -> PyStr.split_dash_0 (s ++ "-" ++ t) = s.
Proof.
  change ("-" ++ t) with (String "-"%char t).
  induction s as [|a s IH]; intros Hs; simpl; [reflexivity|].
  destruct (Ascii.eqb a "-") eqn:E.
  - apply Ascii.eqb_eq in E. exfalso. apply (Hs a); [left; reflexivity|exact E].
  - rewrite IH; [reflexivity|]. intros c Hc. apply Hs. right. exact Hc.
Qed.

Lemma lstrip_head (p : ascii -> bool) (s r : string) (c : ascii) :
  PyStr.lstrip_by p s = String c r -> p c = false.
Proof.
  induction s as [|a s IH]; simpl; [discriminate|].
  destruct (p a) eqn:E; [exact IH|].
  intros H. injection H as <- _. exact E.
Qed.

Lemma lstrip_empty_all (p : ascii -> bool) (s : string) :
  PyStr.lstrip_by p s = "" ->
  forall c, In c (list_ascii_of_string s) -> p c = true.
Proof.
  induction s as [|a s IH]; simpl; [intros _ c []|].
  destruct (p a) eqn:E; [|discriminate].
  intros H c [<-|Hc]; [exact E|exact (IH H c Hc)].
Qed.

Lemma rstrip_empty_all (p : ascii -> bool) (s : string) :
  PyStr.rstrip_by p s = "" ->
  forall c, In c (list_ascii_of_string s) -> p c = true.
Proof.
  induction s as [|a s IH]; simpl; [intros _ c []|].
  destruct (PyStr.rstrip_by p s) as [|b r]; [|discriminate].
  destruct (p a) eqn:E; [|discriminate].
  intros _ c [<-|Hc]; [exact E|exact (IH eq_refl c Hc)].
Qed.

Lemma strip_empty_blank (s : string) : PyStr.strip s = "" -> blank s.
Proof.
  unfold PyStr.strip. intros H.
  pose proof (rstrip_empty_all _ _ H) as Hall.
  destruct (PyStr.lstrip_by PyStr.isspace s) as [|c r] eqn:Hl.
  - exact (lstrip_empty_all _ _ Hl).
  - pose proof (lstrip_head _ _ _ _ Hl) as Hc.
    rewrite (Hall c) in Hc by (left; reflexivity). discriminate.
Qed.

(** ** More about the normalizer *)

Lemma normalizer_reads_eleven (item item' : list (string * json)) :
  (forall k, In k read_fields -> Py.get item' k = Py.get item k) ->
  map_tmdb_item (JDict item') = map_tmdb_item (JDict item).
Proof.
  intros H. apply normalizer_reads_views.
  - unfold resolved_title. rewrite !H by (unfold read_fields; simpl; tauto). reflexivity.
  - unfold resolved_date. rewrite !H by (unfold read_fields; simpl; tauto). reflexivity.
  - rewrite H by (unfold read_fields; simpl; tauto). reflexivity.
  - rewrite H by (unfold read_fields; simpl; tauto). reflexivity.
  - intros k Hk. apply H. unfold read_fields. apply in_or_app. right. exact Hk.
Qed.

Lemma resolved_title_truthy (item : list (string * json)) :
  Py.truthy (resolved_title item) = true.
Proof.
  unfold resolved_title, Py.or_.
  destruct (Py.truthy (Py.get item "title")) eqn:Ht; cbv iota; rewrite ?Ht;
    [reflexivity|].
  destruct (Py.truthy (Py.get item "name")) eqn:Hn; cbv iota; rewrite ?Hn; reflexivity.
Qed.

Lemma year_of_inv (date year : json) :
  year_of date = Ok year ->
  year = JNull \/
  exists s n, date = JStr s /\ PyStr.int (PyStr.split_dash_0 s) = Some n /\
              year = JInt n.
Proof.
  unfold year_of. destruct (Py.truthy date); [|intros H; injection H as <-; auto].
  destruct date as [| | | |s| |]; try discriminate.
  destruct (PyStr.int (PyStr.split_dash_0 s)) as [n|] eqn:Hn; [|discriminate].
  intros H. injection H as <-. right. exists s, n. auto.
Qed.

(** X8.  The title of every item the normalizer returns is true in the
    Python sense: never [None], never the empty string. *)
Theorem title_never_empty (item out : list (string * json)) :
  map_tmdb_item (JDict item) = Ok (JDict out) ->
  exists t, Py.lookup out "title" = Some t /\ Py.truthy t = true /\
            t <> JNull /\ t <> JStr "".
Proof.
  intros H. apply map_tmdb_item_inv in H.
  destruct H as (d & year & Hd & _ & Hout).
  injection Hd as <-. injection Hout as ->.
  exists (resolved_title item). split; [reflexivity|].
  pose proof (resolved_title_truthy item) as Ht.
  split; [exact Ht|].
  split; intros E; rewrite E in Ht; discriminate.
Qed.

(** X9.  The year of every item the normalizer returns is [None] or an
    integer that is not negative: the text before the first dash holds no
    minus sign for [int] to read. *)
Theorem year_none_or_natural (item out : list (string * json)) :
  map_tmdb_item (JDict item) = Ok (JDict out) ->
  Py.lookup out "year" = Some JNull \/
  exists n, 0 <= n /\ Py.lookup out "year" = Some (JInt n).
Proof.
  intros H. apply map_tmdb_item_inv in H.
  destruct H as (d & year & Hd & Hy & Hout).
  injection Hd as <-. injection Hout as ->.
  change (Py.lookup (canonical item year) "year") with (Some year).
  destruct (year_of_inv _ _ Hy) as [->|(s & n & _ & Hn & ->)]; [left; reflexivity|].
  right. exists n. split; [|reflexivity].
  exact (int_no_dash_nonneg _ _ (split_dash_0_no_dash s) Hn).
Qed.

(** X10.  Only the text before the first dash of the date is read: with a
    [release_date] of the form [s-t], [s] free of dashes, the year is
    [int(s)] whatever [t] is, and the normalizer raises [ValueError] when
    [s] is no integer literal (an empty [s] included). *)
Theorem year_ignores_rest_of_date (item : list (string * json)) (s t : string) :
  Py.lookup item "release_date" = Some (JStr (s ++ "-" ++ t)) ->
  no_dash s ->
  map_tmdb_item (JDict item) =
  match PyStr.int s with
  | Some n => Ok (JDict (canonical item (JInt n)))
  | None => Raise ValueError
  end.
Proof.
  intros Hl Hs.
  assert (Hne : s ++ "-" ++ t <> "") by (destruct s; discriminate).
  rewrite map_tmdb_item_eq, (resolved_date_release _ _ Hl Hne), (year_of_str _ Hne).
  rewrite (split_dash_0_app s t Hs).
  destruct (PyStr.int s); reflexivity.
Qed.

(** X11.  A field that is present and [null] is normalized exactly as a
    missing one, whichever field it is. *)
Theorem null_field_as_absent (item : list (string * json)) (k : string) :
  Py.lookup item k = Some JNull ->
  map_tmdb_item (JDict item) = map_tmdb_item (JDict (Py.remove item k)).
Proof.
  intros H. symmetry. apply normalizer_reads_eleven. intros k' _.
  destruct (string_dec k k') as [<-|Hne].
  - rewrite get_remove_same. symmetry. exact (get_of_lookup _ _ _ H).
  - exact (get_remove_other _ _ _ Hne).
Qed.

(** X12.  In [title], [name], [release_date], [first_air_date],
    [poster_path] and [backdrop_path] every value that is false in the
    Python sense (zero, [false], an empty list or object, as well as [null]
    and the empty string) is normalized exactly as a missing field. *)
Theorem falsy_fallback_as_absent (item : list (string * json)) (k : string) (v : json) :
  In k fallback_fields ->
  Py.lookup item k = Some v -> Py.truthy v = false ->
  map_tmdb_item (JDict item) = map_tmdb_item (JDict (Py.remove item k)).
Proof.
  intros Hk He Hv. symmetry. simpl in Hk.
  destruct Hk as [<-|[<-|[<-|[<-|[<-|[<-|[]]]]]]];
    apply normalizer_reads_views;
    try (intros k' Hk'; simpl in Hk';
         destruct Hk' as [<-|[<-|[<-|[<-|[<-|[]]]]]];
         apply get_remove_other; discriminate);
    unfold resolved_title, resolved_date, image_url, Py.or_;
    rewrite ?get_remove_same;
    repeat rewrite get_remove_other by discriminate;
    rewrite ?(get_of_lookup _ _ _ He); cbn [Py.truthy]; rewrite ?Hv; cbv iota;
    rewrite ?Hv; or_cases; rewrite ?Hv; reflexivity.
Qed.

(** X13.  A field the normalizer does not read has no effect on its
    result: adding it, changing it or deleting it leaves the result as it
    was. *)
Theorem unread_fields_ignored (item : list (string * json)) (k : string) (v : json) :
  ~ In k read_fields ->
  map_tmdb_item (JDict (Py.setitem item k v)) = map_tmdb_item (JDict item) /\
  map_tmdb_item (JDict (Py.remove item k)) = map_tmdb_item (JDict item).
Proof.
  intros Hk.
  assert (Hne : forall k', In k' read_fields -> k <> k').
  { intros k' Hk' ->. exact (Hk Hk'). }
  split; apply normalizer_reads_eleven; intros k' Hk'.
  - exact (get_setitem_other _ _ _ _ (Hne k' Hk')).
  - exact (get_remove_other _ _ _ (Hne k' Hk')).
Qed.

(** ** More about the provider client and the handlers *)

Lemma snd_bind_lift {A B} (c : io A) (f : A -> result B) (log : list request) :
  snd (bind c (fun a => lift (f a)) log) = snd (c log).
Proof. unfold bind, lift. destruct (c log) as [[a|e] log1]; reflexivity. Qed.

Lemma tmdb_get_log (path : string) (params : option (list (string * json)))
      (log : list request) :
  (key_unset /\ snd (tmdb_get path params log) = log) \/
  (exists key, getenv "TMDB_API_KEY" = Some key /\ key <> "" /\
     snd (tmdb_get path params log) = (log ++ [outbound key path params])%list).
Proof.
  destruct (getenv "TMDB_API_KEY") as [key|] eqn:Hk.
  - destruct (string_dec key "") as [->|Hne].
    + left. assert (Hu : key_unset) by (right; exact Hk).
      split; [exact Hu|]. rewrite (tmdb_get_unset _ _ _ Hu). reflexivity.
    + right. exists key. split; [reflexivity|]. split; [exact Hne|].
      rewrite (tmdb_get_set _ _ _ _ Hk Hne). reflexivity.
  - left. assert (Hu : key_unset) by (left; exact Hk).
    split; [exact Hu|]. rewrite (tmdb_get_unset _ _ _ Hu). reflexivity.
Qed.

Lemma search_path_eq (type : string) : search_path type = "/search/" ++ type.
Proof.
  unfold search_path. destruct (String.eqb type "multi") eqn:E; [|reflexivity].
  apply String.eqb_eq in E. subst type. reflexivity.
Qed.

Lemma app_one_neq {A} (l : list A) (x : A) : (l ++ [x])%list <> l.
Proof.
  intros H. apply (f_equal (@List.length A)) in H. rewrite List.length_app in H.
  simpl in H. lia.
Qed.

Lemma rmap_first_failure {A B} (f : A -> result B) (l1 l2 : list A) (x : A)
      (rs : list B) (e : exn) :
  Forall2 (fun a b => f a = Ok b) l1 rs -> f x = Raise e ->
  rmap f (l1 ++ x :: l2) = Raise e.
Proof.
  intros H Hx. induction H as [|a b l1 rs Ha _ IH]; simpl.
  - rewrite Hx. reflexivity.
  - rewrite Ha. simpl. rewrite IH. reflexivity.
Qed.

Lemma listing_not_object (data : json) :
  ~ is_object data -> listing data = Raise AttributeError.
Proof.
  intros H. destruct data as [| | | | | |d]; try reflexivity.
  exfalso. apply H. exists d. reflexivity.
Qed.

Lemma listing_scalar_results (data : list (string * json)) (v : json) :
  Py.lookup data "results" = Some v -> scalar v ->
  listing (JDict data) = Raise TypeError.
Proof.
  intros Hl Hv. unfold listing. simpl. unfold Py.get_or. rewrite Hl.
  destruct v; simpl in Hv; try contradiction; reflexivity.
Qed.

Lemma listing_first_failure (data : list (string * json)) (before after : list json)
      (bad : json) (done : list json) (e : exn) :
  Py.lookup data "results" = Some (JList (before ++ bad :: after)) ->
  Forall2 (fun i r => map_tmdb_item i = Ok r) before done ->
  map_tmdb_item bad = Raise e ->
  listing (JDict data) = Raise e.
Proof.
  intros Hl Hb He. unfold listing. simpl. unfold Py.get_or. rewrite Hl. simpl.
  rewrite (rmap_first_failure _ _ _ _ _ _ Hb He). reflexivity.
Qed.

Lemma detail_not_object (data : json) :
  ~ is_object data -> detail data = Raise AttributeError.
Proof.
  intros H. destruct data as [| | | | | |d]; try reflexivity.
  exfalso. apply H. exists d. reflexivity.
Qed.

Lemma detail_videos_not_object (data : list (string * json)) (base v : json) :
  map_tmdb_item (JDict data) = Ok base ->
  Py.lookup data "videos" = Some v -> ~ is_object v ->
  detail (JDict data) = Raise AttributeError.
Proof.
  intros Hm Hl Hv. unfold detail. rewrite Hm. simpl. unfold Py.get_or at 1.
  rewrite Hl. destruct v as [| | | | | |vd]; try reflexivity.
  exfalso. apply Hv. exists vd. reflexivity.
Qed.

(** X1.  [tmdb_get] returns a payload exactly when a non-empty key is
    configured, the provider answers the one call with status 200 and the
    body decodes to that payload; the call is then the one entry added to
    the log. *)
Theorem tmdb_get_succeeds_iff (path : string) (params : option (list (string * json)))
        (log log' : list request) (data : json) :
  tmdb_get path params log = (Ok data, log') <->
  exists key resp,
    getenv "TMDB_API_KEY" = Some key /\ key <> "" /\
    requests_get (outbound key path params) = Responded resp /\
    status_code resp = 200 /\ json_body resp = inr data /\
    log' = (log ++ [outbound key path params])%list.
Proof.
  split; [apply tmdb_get_inv|].
  intros (key & resp & Hk & Hne & Hr & Hs & Hj & ->).
  rewrite (tmdb_get_set _ _ _ _ Hk Hne), Hr. unfold answer.
  rewrite Hs, Hj. reflexivity.
Qed.

(** X2.  With a key configured, when [requests.get] raises a transport
    error, [tmdb_get] raises the HTTP error of status 502 whose detail is
    [TMDB request failed: ] followed by the cause, and each handler ends
    with that error. *)
Theorem transport_failure_relayed (key cause : string) :
  getenv "TMDB_API_KEY" = Some key -> key <> "" ->
  (forall path params log,
     requests_get (outbound key path params) = RequestException cause ->
     tmdb_get path params log =
     (Raise (HTTPException 502 ("TMDB request failed: " ++ cause)),
      (log ++ [outbound key path params])%list)) /\
  (forall media_type time_window page log,
     requests_get (outbound key (trending_path media_type time_window)
                            (Some [("page", JInt page)])) = RequestException cause ->
     fst (tmdb_trending media_type time_window page log) =
     Raise (HTTPException 502 ("TMDB request failed: " ++ cause))) /\
  (forall query page type log,
     PyStr.strip query <> "" ->
     requests_get (outbound key (search_path type)
                            (Some (search_params query page))) = RequestException cause ->
     fst (tmdb_search query page type log) =
     Raise (HTTPException 502 ("TMDB request failed: " ++ cause))) /\
  (forall movie_id log,
     requests_get (outbound key (movie_path movie_id) (Some movie_params))
       = RequestException cause ->
     fst (tmdb_movie_details movie_id log) =
     Raise (HTTPException 502 ("TMDB request failed: " ++ cause))).
Proof.
  intros Hk Hne.
  assert (Hget : forall path params log,
     requests_get (outbound key path params) = RequestException cause ->
     tmdb_get path params log =
     (Raise (HTTPException 502 ("TMDB request failed: " ++ cause)),
      (log ++ [outbound key path params])%list)).
  { intros path params log Hr. rewrite (tmdb_get_set _ _ _ _ Hk Hne), Hr.
    reflexivity. }
  split; [exact Hget|]. split; [|split].
  - intros media_type time_window page log Hr. rewrite tmdb_trending_eq.
    erewrite bind_raise by (apply Hget; exact Hr). reflexivity.
  - intros query page type log Hq Hr. rewrite (tmdb_search_eq _ _ _ Hq).
    erewrite bind_raise by (apply Hget; exact Hr). reflexivity.
  - intros movie_id log Hr. rewrite tmdb_movie_details_eq.
    erewrite bind_raise by (apply Hget; exact Hr). reflexivity.
Qed.

(** X3.  No retries: one call of [tmdb_get], and one call of any handler,
    adds at most one outbound call to the log, whatever the outcome. *)
Theorem at_most_one_request :
  (forall path params, appends_at_most_one (tmdb_get path params)) /\
  (forall media_type time_window page,
     appends_at_most_one (tmdb_trending media_type time_window page)) /\
  (forall query page type, appends_at_most_one (tmdb_search query page type)) /\
  (forall movie_id, appends_at_most_one (tmdb_movie_details movie_id)).
Proof.
  assert (Hget : forall path params, appends_at_most_one (tmdb_get path params)).
  { intros path params log.
    destruct (tmdb_get_log path params log) as [[_ H]|(key & _ & _ & H)].
    - exists []. rewrite H, app_nil_r. split; [reflexivity|simpl; lia].
    - exists [outbound key path params]. split; [exact H|simpl; lia]. }
  split; [exact Hget|]. split; [|split].
  - intros media_type time_window page log.
    rewrite tmdb_trending_eq, snd_bind_lift. apply Hget.
  - intros query page type log.
    destruct (string_dec (PyStr.strip query) "") as [Hs|Hs].
    + exists []. unfold tmdb_search. rewrite (strip_blank_rejected _ Hs).
      rewrite app_nil_r. split; [reflexivity|simpl; lia].
    + rewrite (tmdb_search_eq _ _ _ Hs), snd_bind_lift. apply Hget.
  - intros movie_id log. rewrite tmdb_movie_details_eq, snd_bind_lift. apply Hget.
Qed.

(** X4.  With a key configured, the one call [tmdb_get] issues goes to
    the base URL followed by the path, with a timeout of 15 seconds; its
    parameters hold the key under [api_key], whatever the caller passed
    under that name, and every other parameter as the caller passed it. *)
Theorem key_injected (key path : string) (p : list (string * json))
        (log : list request) :
  getenv "TMDB_API_KEY" = Some key -> key <> "" ->
  exists req,
    snd (tmdb_get path (Some p) log) = (log ++ [req])%list /\
    req_url req = TMDB_BASE ++ path /\
    req_timeout req = 15 /\
    Py.lookup (req_params req) "api_key" = Some (JStr key) /\
    (forall k, k <> "api_key" -> Py.lookup (req_params req) k = Py.lookup p k).
Proof.
  intros Hk Hne. exists (outbound key path (Some p)).
  rewrite (tmdb_get_set _ _ _ _ Hk Hne).
  split; [reflexivity|]. split; [reflexivity|]. split; [reflexivity|].
  unfold outbound. cbn [req_params]. split.
  - apply lookup_setitem_same.
  - intros k Hk'. rewrite lookup_setitem_other by (intros E; apply Hk'; symmetry; exact E).
    destruct p; reflexivity.
Qed.

(** X5.  With a key configured, the call each handler issues: trending
    asks [/trending/{media_type}/{time_window}] with the page; search asks
    [/search/{type}] for every type, [multi] included, with the query as the
    caller sent it (not trimmed), the page and [include_adult] false; detail
    asks [/movie/{id}] with [append_to_response] set to [videos,credits].
    Each carries the key last. *)
Theorem handler_requests (key : string) (log : list request) :
  getenv "TMDB_API_KEY" = Some key -> key <> "" ->
  (forall media_type time_window page,
     snd (tmdb_trending media_type time_window page log) =
     (log ++ [mkRequest
                (TMDB_BASE ++ "/trending/" ++ media_type ++ "/" ++ time_window)
                [("page", JInt page); ("api_key", JStr key)] 15])%list) /\
  (forall query page type,
     PyStr.strip query <> "" ->
     snd (tmdb_search query page type log) =
     (log ++ [mkRequest
                (TMDB_BASE ++ "/search/" ++ type)
                [("query", JStr query); ("page", JInt page);
                 ("include_adult", JBool false); ("api_key", JStr key)] 15])%list) /\
  (forall movie_id,
     snd (tmdb_movie_details movie_id log) =
     (log ++ [mkRequest
                (TMDB_BASE ++ "/movie/" ++ PyStr.of_int movie_id)
                [("append_to_response", JStr "videos,credits");
                 ("api_key", JStr key)] 15])%list).
Proof.
  intros Hk Hne. split; [|split].
  - intros media_type time_window page.
    rewrite tmdb_trending_eq, snd_bind_lift, (tmdb_get_set _ _ _ _ Hk Hne).
    reflexivity.
  - intros query page type Hq.
    rewrite (tmdb_search_eq _ _ _ Hq), snd_bind_lift, (tmdb_get_set _ _ _ _ Hk Hne).
    rewrite search_path_eq. reflexivity.
  - intros movie_id.
    rewrite tmdb_movie_details_eq, snd_bind_lift, (tmdb_get_set _ _ _ _ Hk Hne).
    reflexivity.
Qed.

(** X6.  The handlers translate no error: whatever [tmdb_get] raises is
    what the handler ends with, the log as [tmdb_get] left it. *)
Theorem errors_propagate (e : exn) (log log' : list request) :
  (forall media_type time_window page,
     tmdb_get (trending_path media_type time_window) (Some [("page", JInt page)]) log
       = (Raise e, log') ->
     tmdb_trending media_type time_window page log = (Raise e, log')) /\
  (forall query page type,
     PyStr.strip query <> "" ->
     tmdb_get (search_path type) (Some (search_params query page)) log
       = (Raise e, log') ->
     tmdb_search query page type log = (Raise e, log')) /\
  (forall movie_id,
     tmdb_get (movie_path movie_id) (Some movie_params) log = (Raise e, log') ->
     tmdb_movie_details movie_id log = (Raise e, log')).
Proof.
  split; [|split].
  - intros media_type time_window page H. rewrite tmdb_trending_eq.
    exact (bind_raise _ _ _ _ _ H).
  - intros query page type Hq H. rewrite (tmdb_search_eq _ _ _ Hq).
    exact (bind_raise _ _ _ _ _ H).
  - intros movie_id H. rewrite tmdb_movie_details_eq. exact (bind_raise _ _ _ _ _ H).
Qed.

(** X7.  No partial results: when an element of the upstream [results]
    array fails to normalize and the ones before it do not, a listing
    handler ends with that element's exception instead of a shorter list. *)
Theorem listing_fails_on_first_bad_item
        (data : list (string * json)) (before after : list json) (bad : json)
        (done : list json) (e : exn) (log log' : list request) :
  Py.lookup data "results" = Some (JList (before ++ bad :: after)) ->
  Forall2 (fun i r => map_tmdb_item i = Ok r) before done ->
  map_tmdb_item bad = Raise e ->
  (forall media_type time_window page,
     tmdb_get (trending_path media_type time_window) (Some [("page", JInt page)]) log
       = (Ok (JDict data), log') ->
     tmdb_trending media_type time_window page log = (Raise e, log')) /\
  (forall query page type,
     PyStr.strip query <> "" ->
     tmdb_get (search_path type) (Some (search_params query page)) log
       = (Ok (JDict data), log') ->
     tmdb_search query page type log = (Raise e, log')).
Proof.
  intros Hl Hb He. pose proof (listing_first_failure _ _ _ _ _ _ Hl Hb He) as Hf.
  split.
  - intros media_type time_window page H.
    rewrite tmdb_trending_eq, (bind_ok _ _ _ _ _ H). unfold lift. rewrite Hf.
    reflexivity.
  - intros query page type Hq H.
    rewrite (tmdb_search_eq _ _ _ Hq), (bind_ok _ _ _ _ _ H). unfold lift.
    rewrite Hf. reflexivity.
Qed.

(** X14.  A detail request fails with [AttributeError] when the payload is
    not an object, and also when the payload is an object whose base item
    normalizes but whose [videos] entry is present and not an object
    ([null] included). *)
Theorem detail_fails_on_malformed_payload (movie_id : Z) (log log' : list request) :
  (forall data,
     tmdb_get (movie_path movie_id) (Some movie_params) log = (Ok data, log') ->
     ~ is_object data ->
     tmdb_movie_details movie_id log = (Raise AttributeError, log')) /\
  (forall data base v,
     tmdb_get (movie_path movie_id) (Some movie_params) log
       = (Ok (JDict data), log') ->
     map_tmdb_item (JDict data) = Ok base ->
     Py.lookup data "videos" = Some v -> ~ is_object v ->
     tmdb_movie_details movie_id log = (Raise AttributeError, log')).
Proof.
  rewrite tmdb_movie_details_eq. split.
  - intros data H Hd. rewrite (bind_ok _ _ _ _ _ H). unfold lift.
    rewrite (detail_not_object _ Hd). reflexivity.
  - intros data base v H Hm Hl Hv. rewrite (bind_ok _ _ _ _ _ H). unfold lift.
    rewrite (detail_videos_not_object _ _ _ Hm Hl Hv). reflexivity.
Qed.

(** X15.  A listing request fails with [AttributeError] when the payload
    is not an object, and with [TypeError] when its [results] entry is
    present and is [null], a boolean or a number. *)
Theorem listing_fails_on_malformed_payload (log log' : list request) :
  (forall media_type time_window page data,
     tmdb_get (trending_path media_type time_window) (Some [("page", JInt page)]) log
       = (Ok data, log') ->
     (~ is_object data ->
      tmdb_trending media_type time_window page log = (Raise AttributeError, log')) /\
     (forall d v, data = JDict d -> Py.lookup d "results" = Some v -> scalar v ->
      tmdb_trending media_type time_window page log = (Raise TypeError, log'))) /\
  (forall query page type data,
     PyStr.strip query <> "" ->
     tmdb_get (search_path type) (Some (search_params query page)) log
       = (Ok data, log') ->
     (~ is_object data ->
      tmdb_search query page type log = (Raise AttributeError, log')) /\
     (forall d v, data = JDict d -> Py.lookup d "results" = Some v -> scalar v ->
      tmdb_search query page type log = (Raise TypeError, log'))).
Proof.
  split.
  - intros media_type time_window page data H. rewrite tmdb_trending_eq.
    rewrite (bind_ok _ _ _ _ _ H). unfold lift. split.
    + intros Hd. rewrite (listing_not_object _ Hd). reflexivity.
    + intros d v -> Hl Hv. rewrite (listing_scalar_results _ _ Hl Hv). reflexivity.
  - intros query page type data Hq H. rewrite (tmdb_search_eq _ _ _ Hq).
    rewrite (bind_ok _ _ _ _ _ H). unfold lift. split.
    + intros Hd. rewrite (listing_not_object _ Hd). reflexivity.
    + intros d v -> Hl Hv. rewrite (listing_scalar_results _ _ Hl Hv). reflexivity.
Qed.

(** X16.  A search is rejected as blank, with status 400 and the log
    untouched, exactly when its query is made of whitespace only; any other
    query goes on to the provider client. *)
Theorem search_rejects_iff_blank (query : string) (page : Z) (type : string)
        (log : list request) :
  tmdb_search query page type log =
    (Raise (HTTPException 400 "Query is required"), log) <->
  blank query.
Proof.
  split.
  - intros H. apply strip_empty_blank.
    destruct (string_dec (PyStr.strip query) "") as [Hs|Hs]; [exact Hs|exfalso].
    pose proof (f_equal snd H) as Hlog. simpl in Hlog.
    rewrite (tmdb_search_eq _ _ _ Hs) in H, Hlog. rewrite snd_bind_lift in Hlog.
    destruct (tmdb_get_log (search_path type) (Some (search_params query page)) log)
      as [[Hu _]|(key & _ & _ & Hg)].
    + rewrite (bind_raise _ _ _ _ _ (tmdb_get_unset _ _ _ Hu)) in H. discriminate.
    + rewrite Hg in Hlog. exact (app_one_neq _ _ Hlog).
  - intros H. unfold tmdb_search.
    rewrite (strip_blank_rejected _ (strip_blank _ H)). reflexivity.
Qed.

End Tmdb.

(** ** Closed examples *)

Lemma year_2021_witness :
  map_tmdb_item str_scalar (JDict item_2021) =
  Ok (JDict (canonical str_scalar item_2021 (JInt 2021))).
Proof.
  apply (year_from_resolved_date str_scalar item_2021). reflexivity.
Defined.

Lemma poster_url_witness :
  Py.lookup (canonical str_scalar item_x (JInt 2020)) "poster" =
  Some (JStr ("https://image.tmdb.org" ++ "/t/p/w500" ++ "/a.jpg")).
Proof.
  refine (proj1 (proj2 (proj2
    (image_fields_url_or_absent str_scalar item_x
       (canonical str_scalar item_x (JInt 2020)) _))) "/a.jpg" _ _).
  - reflexivity.
  - reflexivity.
  - discriminate.
Defined.

Lemma title_from_name_witness :
  Py.lookup (canonical str_scalar item_empty_title JNull) "title" = Some (JStr "N").
Proof.
  refine (proj1 (proj2 (proj2
    (title_resolution str_scalar item_empty_title
       (canonical str_scalar item_empty_title JNull) _))) "N" _ _ _).
  - reflexivity.
  - right. reflexivity.
  - reflexivity.
  - discriminate.
Defined.

(** C3 as worded fails on a record whose title is present and empty: the
    wording picks the empty title, the normalizer the name. *)
Lemma title_present_but_empty :
  Py.lookup item_empty_title "title" = Some (JStr "") /\
  title_if_present item_empty_title = JStr "" /\
  map_tmdb_item str_scalar (JDict item_empty_title) =
    Ok (JDict (canonical str_scalar item_empty_title JNull)) /\
  Py.lookup (canonical str_scalar item_empty_title JNull) "title" = Some (JStr "N") /\
  Py.lookup (canonical str_scalar item_empty_title JNull) "title" <>
    Some (title_if_present item_empty_title).
Proof.
  split; [reflexivity|]. split; [reflexivity|]. split; [reflexivity|].
  split; [reflexivity|]. discriminate.
Qed.

Lemma id_42_witness :
  Py.lookup (canonical str_scalar item_x (JInt 2020)) "id" = Some (JInt 42).
Proof.
  refine (proj2 (id_passthrough str_scalar item_x
                   (canonical str_scalar item_x (JInt 2020)) _) 42 _);
    reflexivity.
Defined.

Lemma empty_fields_witness :
  map_tmdb_item str_scalar (JDict item_empty_title) =
    map_tmdb_item str_scalar (JDict (Py.remove item_empty_title "title")) /\
  (exists out,
     map_tmdb_item str_scalar (JDict item_empties) = Ok (JDict out) /\
     Py.lookup out "year" = Some (JInt 2019)) /\
  Py.lookup (canonical str_scalar item_empties (JInt 2019)) "title" = Some (JStr "N") /\
  Py.lookup (canonical str_scalar item_empties (JInt 2019)) "poster" = Some JNull /\
  Py.lookup (canonical str_scalar item_empties (JInt 2019)) "overview"
    = Some (JStr "") /\
  Py.lookup (canonical str_scalar item_empties (JInt 2019)) "id" = Some (JInt 9).
Proof.
  split.
  { refine (proj1 (empty_string_as_absent str_scalar item_empty_title) "title" _ _).
    - left. reflexivity.
    - reflexivity. }
  destruct (empty_string_as_absent str_scalar item_empties)
    as (_ & _ & _ & _ & _ & Hout & Hyear & _).
  split.
  { exact (Hyear eq_refl "2019-03-01" eq_refl ltac:(discriminate)). }
  destruct (Hout (canonical str_scalar item_empties (JInt 2019)) eq_refl)
    as (Ht & Hp & _ & Hk).
  split; [exact (proj1 (Ht eq_refl) "N" eq_refl ltac:(discriminate))|].
  split; [exact (Hp eq_refl)|].
  split.
  - exact (proj1 (Hk "overview" ltac:(simpl; auto 6)) (JStr "") eq_refl).
  - exact (proj1 (Hk "id" ltac:(simpl; auto 6)) (JInt 9) eq_refl).
Defined.

(** C10 as worded fails on a copied field: an empty [overview] comes out
    as the empty string, a missing one as [None]. *)
Lemma empty_overview_is_kept :
  In "overview" passthrough_fields /\
  Py.lookup item_empty_overview "overview" = Some (JStr "") /\
  map_tmdb_item str_scalar (JDict item_empty_overview) =
    Ok (JDict (canonical str_scalar item_empty_overview JNull)) /\
  Py.lookup (canonical str_scalar item_empty_overview JNull) "overview"
    = Some (JStr "") /\
  Py.lookup (canonical str_scalar (Py.remove item_empty_overview "overview") JNull)
    "overview" = Some JNull /\
  map_tmdb_item str_scalar (JDict item_empty_overview) <>
  map_tmdb_item str_scalar (JDict (Py.remove item_empty_overview "overview")).
Proof.
  split; [simpl; tauto|]. split; [reflexivity|]. split; [reflexivity|].
  split; [reflexivity|]. split; [reflexivity|]. discriminate.
Qed.

Lemma not_found_relayed_witness :
  tmdb_get env_with_key upstream_not_found (movie_path 0) (Some movie_params) [] =
    (Raise (HTTPException 404 not_found_body),
     [outbound "k3y" (movie_path 0) (Some movie_params)]) /\
  answered body_allowed_plain
    (tmdb_movie_details str_scalar env_with_key upstream_not_found 0) []
    (mkReply 404 (JsonBody (JDict [("detail", JStr not_found_body)]))).
Proof.
  destruct (upstream_error_relayed str_scalar env_with_key upstream_not_found
              body_allowed_plain "k3y" resp_not_found eq_refl
              ltac:(discriminate) ltac:(simpl; lia))
    as (Hget & _ & _ & _ & _ & _ & Hmovie).
  split.
  - exact (Hget (movie_path 0) (Some movie_params) [] eq_refl).
  - exact (proj1 (proj2 (Hmovie 0 [] eq_refl)) eq_refl).
Defined.

(** C4 as worded fails on the scenario of the specification: the caller of
    the detail handler is answered 404 with the provider's text inside
    [detail], which is neither the provider's body as text nor the JSON
    document that body holds. *)
Lemma not_found_body_is_wrapped :
  upstream_not_found (outbound "k3y" (movie_path 0) (Some movie_params))
    = Responded resp_not_found /\
  text resp_not_found = not_found_body /\
  json_body resp_not_found = inr (JDict [("status_message", JStr "Not found")]) /\
  answered body_allowed_plain
    (tmdb_movie_details str_scalar env_with_key upstream_not_found 0) []
    (mkReply 404 (JsonBody (JDict [("detail", JStr not_found_body)]))) /\
  JsonBody (JDict [("detail", JStr not_found_body)]) <> TextBody not_found_body /\
  JsonBody (JDict [("detail", JStr not_found_body)]) <>
    JsonBody (JDict [("status_message", JStr "Not found")]).
Proof.
  split; [reflexivity|]. split; [reflexivity|]. split; [reflexivity|].
  split.
  { exists (HTTPException 404 not_found_body). split; reflexivity. }
  split; discriminate.
Qed.

Lemma no_key_witness :
  tmdb_get env_without_key upstream_page_x "/trending/movie/day"
           (Some [("page", JInt 1)]) [] =
  (Raise (HTTPException 500 "TMDB_API_KEY not set in environment"), []).
Proof.
  refine (proj1 (missing_key_is_server_fault str_scalar env_without_key
                   upstream_page_x _) _ _ _).
  left. reflexivity.
Defined.

Lemma blank_query_witness :
  PyStr.strip "   " = "" /\
  tmdb_search str_scalar env_with_key upstream_page_x "   " 1 "multi" [] =
  (Raise (HTTPException 400 "Query is required"), []).
Proof.
  apply (blank_query_rejected str_scalar env_with_key upstream_page_x "   " 1 "multi" []).
  intros c [<-|[<-|[<-|[]]]]; reflexivity.
Defined.

Lemma trending_page_witness :
  tmdb_trending str_scalar env_with_key upstream_page_x "movie" "day" 1 [] =
  (Ok (envelope page_x [JDict (canonical str_scalar item_x (JInt 2020))]),
   [outbound "k3y" "/trending/movie/day" (Some [("page", JInt 1)])]).
Proof.
  refine (proj1 (proj2 (proj1 (listing_envelope str_scalar env_with_key upstream_page_x)
                          "movie" "day" 1))
                [] _ page_x [JDict item_x] _ _ _ _).
  - reflexivity.
  - reflexivity.
  - constructor; [reflexivity|constructor].
Defined.

Lemma movie_detail_witness :
  (exists out,
     tmdb_movie_details str_scalar env_with_key upstream_movie_bare 550 [] =
       (Ok (JDict out), [outbound "k3y" "/movie/550" (Some movie_params)]) /\
     Py.lookup out "genres" = Some (JList []) /\
     Py.lookup out "videos" = Some (JList []) /\
     Py.lookup out "credits" = Some (JDict []) /\
     Py.lookup out "runtime" = Some JNull) /\
  (exists out,
     tmdb_movie_details str_scalar env_with_key upstream_movie_full 550 [] =
       (Ok (JDict out), [outbound "k3y" "/movie/550" (Some movie_params)]) /\
     map fst out = (canonical_keys ++ detail_keys)%list /\
     Py.lookup out "title" = Some (JStr "Fight Club") /\
     Py.lookup out "year" = Some (JInt 1999) /\
     Py.lookup out "genres" =
       Some (JList [JDict [("id", JInt 18); ("name", JStr "Drama")]]) /\
     Py.lookup out "runtime" = Some (JInt 139) /\
     Py.lookup out "videos" = Some (JList [JDict [("key", JStr "SUXWAEX2jlg")]]) /\
     Py.lookup out "credits" =
       Some (JDict [("cast", JList [JDict [("name", JStr "Edward Norton")]])]) /\
     Py.lookup out "homepage" =
       Some (JStr "http://www.foxmovies.com/movies/fight-club") /\
     Py.lookup out "status" = Some (JStr "Released") /\
     Py.lookup out "release_date" = Some (JStr "1999-10-15")).
Proof.
  split.
  - destruct (proj1 (proj2 (detail_merge_and_defaults str_scalar env_with_key
                       upstream_movie_bare 550 []
                       [outbound "k3y" "/movie/550" (Some movie_params)]))
                    movie_bare (JDict (canonical str_scalar movie_bare JNull))
                    eq_refl eq_refl (or_introl eq_refl))
      as (out & Hout & Hg & Hr & Hv & _ & Hc & _).
    exists out. split; [exact Hout|]. split; [exact (Hg eq_refl)|].
    split; [exact (Hv eq_refl)|]. split; [exact (Hc eq_refl)|exact (Hr eq_refl)].
  - destruct (proj2 (proj2 (proj2 (detail_merge_and_defaults str_scalar env_with_key
                       upstream_movie_full 550 []
                       [outbound "k3y" "/movie/550" (Some movie_params)])))
                    movie_full (canonical str_scalar movie_full (JInt 1999))
                    eq_refl eq_refl
                    (or_intror (ex_intro _ _ eq_refl)))
      as (out & Hout & Hkeys & Hbase & Hg & Hr & [_ Hv] & Hc & Hh & Hs & Hd).
    exists out. split; [exact Hout|]. split; [exact Hkeys|].
    split.
    { rewrite Hbase; [reflexivity|].
      simpl. intros H. repeat (destruct H as [H|H]; [discriminate|]). exact H. }
    split.
    { rewrite Hbase; [reflexivity|].
      simpl. intros H. repeat (destruct H as [H|H]; [discriminate|]). exact H. }
    split; [exact (proj1 Hg _ eq_refl)|]. split; [exact (proj1 Hr _ eq_refl)|].
    split; [exact (proj1 (Hv _ eq_refl) _ eq_refl)|].
    split; [exact (proj1 Hc _ eq_refl)|]. split; [exact (proj1 Hh _ eq_refl)|].
    split; [exact (proj1 Hs _ eq_refl)|exact (proj1 Hd _ eq_refl)].
Defined.

(** ** Where the statements above stop

    Inputs outside their hypotheses, evaluated. *)

(** A date with no integer before its first dash makes the normalizer
    raise. *)
Example malformed_date_raises :
  map_tmdb_item str_scalar (JDict [("release_date", JStr "soon")]) = Raise ValueError.
Proof. reflexivity. Qed.

(** A date that is not a string has no [split]. *)
Example numeric_date_raises :
  map_tmdb_item str_scalar (JDict [("release_date", JInt 2021)]) = Raise AttributeError.
Proof. reflexivity. Qed.

(** A [results] entry that is present and [null] is not a missing one: the
    comprehension cannot iterate it. *)
Example null_results_raises :
  listing str_scalar (JDict [("page", JInt 1); ("results", JNull)]) = Raise TypeError.
Proof. reflexivity. Qed.

(** A [videos] entry that is present and [null] has no [get]. *)
Example null_videos_raises :
  detail str_scalar (JDict [("id", JInt 550); ("videos", JNull)]) = Raise AttributeError.
Proof. reflexivity. Qed.

(** Only status 200 is a success: 204 is relayed as an error too. *)
Example status_204_raises :
  answer (Responded (mkResponse 204 "" (inr JNull))) = Raise (HTTPException 204 "").
Proof. reflexivity. Qed.

(** A transport failure becomes status 502 with the cause in the detail. *)
Example transport_failure_is_502 :
  answer (RequestException "timed out") =
  Raise (HTTPException 502 "TMDB request failed: timed out").
Proof. reflexivity. Qed.

(** A blank query is rejected before the key is looked for. *)
Example blank_query_without_key :
  tmdb_search str_scalar env_without_key upstream_page_x " " 1 "multi" [] =
  (Raise (HTTPException 400 "Query is required"), []).
Proof. reflexivity. Qed.

(** ** Closed examples, continued *)

Lemma tmdb_get_success_witness :
  tmdb_get env_with_key upstream_page_x "/trending/movie/day"
           (Some [("page", JInt 1)]) [] =
  (Ok (JDict page_x),
   [outbound "k3y" "/trending/movie/day" (Some [("page", JInt 1)])]).
Proof.
  apply (proj2 (tmdb_get_succeeds_iff env_with_key upstream_page_x
                  "/trending/movie/day" (Some [("page", JInt 1)]) [] _ _)).
  exists "k3y", (mkResponse 200 "" (inr (JDict page_x))).
  split; [reflexivity|]. split; [discriminate|].
  split; [reflexivity|]. split; [reflexivity|]. split; reflexivity.
Defined.

Lemma timeout_relayed_witness :
  tmdb_get env_with_key upstream_down (movie_path 0) (Some movie_params) [] =
  (Raise (HTTPException 502 "TMDB request failed: timed out"),
   [outbound "k3y" (movie_path 0) (Some movie_params)]).
Proof.
  refine (proj1 (transport_failure_relayed str_scalar env_with_key upstream_down
                   "k3y" "timed out" _ _) (movie_path 0) (Some movie_params) [] _).
  - reflexivity.
  - discriminate.
  - reflexivity.
Defined.

Lemma key_overrides_witness :
  exists req,
    snd (tmdb_get env_with_key upstream_page_x "/x"
           (Some [("api_key", JStr "mine"); ("page", JInt 2)]) []) = [req] /\
    req_url req = TMDB_BASE ++ "/x" /\
    req_timeout req = 15 /\
    Py.lookup (req_params req) "api_key" = Some (JStr "k3y") /\
    (forall k, k <> "api_key" ->
       Py.lookup (req_params req) k =
       Py.lookup [("api_key", JStr "mine"); ("page", JInt 2)] k).
Proof.
  refine (key_injected env_with_key upstream_page_x "k3y" "/x"
            [("api_key", JStr "mine"); ("page", JInt 2)] [] _ _).
  - reflexivity.
  - discriminate.
Defined.

Lemma search_request_witness :
  snd (tmdb_search str_scalar env_with_key upstream_page_x " dune " 1 "multi" []) =
  [mkRequest (TMDB_BASE ++ "/search/" ++ "multi")
     [("query", JStr " dune "); ("page", JInt 1);
      ("include_adult", JBool false); ("api_key", JStr "k3y")] 15].
Proof.
  refine (proj1 (proj2 (handler_requests str_scalar env_with_key upstream_page_x
                          "k3y" [] _ _)) " dune " 1 "multi" _).
  - reflexivity.
  - discriminate.
  - vm_compute. discriminate.
Defined.

Lemma missing_key_propagates_witness :
  tmdb_trending str_scalar env_without_key upstream_page_x "movie" "day" 1 [] =
  (Raise (HTTPException 500 "TMDB_API_KEY not set in environment"), []).
Proof.
  refine (proj1 (errors_propagate str_scalar env_without_key upstream_page_x
                   _ [] []) "movie" "day" 1 _).
  reflexivity.
Defined.

Lemma bad_item_fails_page_witness :
  tmdb_trending str_scalar env_with_key upstream_page_bad "movie" "day" 1 [] =
  (Raise ValueError,
   [outbound "k3y" "/trending/movie/day" (Some [("page", JInt 1)])]).
Proof.
  refine (proj1 (listing_fails_on_first_bad_item str_scalar env_with_key
                   upstream_page_bad page_bad [JDict item_x] [JDict item_2021]
                   (JDict item_bad_date)
                   [JDict (canonical str_scalar item_x (JInt 2020))]
                   ValueError [] _ _ _ _) "movie" "day" 1 _).
  - reflexivity.
  - constructor; [reflexivity|constructor].
  - reflexivity.
  - reflexivity.
Defined.

Lemma untitled_is_true_witness :
  exists t,
    Py.lookup (canonical str_scalar item_2021 (JInt 2021)) "title" = Some t /\
    Py.truthy t = true /\ t <> JNull /\ t <> JStr "".
Proof.
  apply (title_never_empty str_scalar item_2021). reflexivity.
Defined.

Lemma year_natural_witness :
  Py.lookup (canonical str_scalar item_2021 (JInt 2021)) "year" = Some JNull \/
  exists n, 0 <= n /\
    Py.lookup (canonical str_scalar item_2021 (JInt 2021)) "year" = Some (JInt n).
Proof.
  apply (year_none_or_natural str_scalar item_2021). reflexivity.
Defined.

Lemma year_of_odd_date_witness :
  map_tmdb_item str_scalar (JDict item_dated) =
  Ok (JDict (canonical str_scalar item_dated (JInt 2021))).
Proof.
  refine (year_ignores_rest_of_date str_scalar item_dated "2021" "xx-yy" _ _).
  - reflexivity.
  - intros c [<-|[<-|[<-|[<-|[]]]]]; discriminate.
Defined.

Lemma null_title_witness :
  map_tmdb_item str_scalar (JDict item_null_title) =
  map_tmdb_item str_scalar (JDict (Py.remove item_null_title "title")).
Proof.
  apply (null_field_as_absent str_scalar item_null_title "title"). reflexivity.
Defined.

Lemma zero_title_witness :
  map_tmdb_item str_scalar (JDict item_zero_title) =
  map_tmdb_item str_scalar (JDict (Py.remove item_zero_title "title")).
Proof.
  refine (falsy_fallback_as_absent str_scalar item_zero_title "title" (JInt 0) _ _ _).
  - left. reflexivity.
  - reflexivity.
  - reflexivity.
Defined.

Lemma popularity_ignored_witness :
  map_tmdb_item str_scalar (JDict (Py.setitem item_x "popularity" (JInt 9))) =
    map_tmdb_item str_scalar (JDict item_x) /\
  map_tmdb_item str_scalar (JDict (Py.remove item_x "popularity")) =
    map_tmdb_item str_scalar (JDict item_x).
Proof.
  apply (unread_fields_ignored str_scalar item_x "popularity" (JInt 9)).
  unfold read_fields. simpl. intros H.
  repeat (destruct H as [H|H]; [discriminate|]). exact H.
Defined.

Lemma null_videos_fails_witness :
  tmdb_movie_details str_scalar env_with_key upstream_movie_null_videos 550 [] =
  (Raise AttributeError, [outbound "k3y" "/movie/550" (Some movie_params)]).
Proof.
  refine (proj2 (detail_fails_on_malformed_payload str_scalar env_with_key
                   upstream_movie_null_videos 550 [] _)
                movie_null_videos
                (JDict (canonical str_scalar movie_null_videos JNull)) JNull _ _ _ _).
  - reflexivity.
  - reflexivity.
  - reflexivity.
  - intros [d H]. discriminate.
Defined.

Lemma null_results_fails_witness :
  tmdb_trending str_scalar env_with_key upstream_null_results "movie" "day" 1 [] =
  (Raise TypeError, [outbound "k3y" "/trending/movie/day" (Some [("page", JInt 1)])]).
Proof.
  refine (proj2 (proj1 (listing_fails_on_malformed_payload str_scalar env_with_key
                          upstream_null_results [] _)
                       "movie" "day" 1 (JDict page_null_results) _)
                page_null_results JNull _ _ _).
  - reflexivity.
  - reflexivity.
  - reflexivity.
  - exact I.
Defined.

Lemma empty_query_rejected_witness :
  tmdb_search str_scalar env_with_key upstream_page_x "" 1 "multi" [] =
  (Raise (HTTPException 400 "Query is required"), []).
Proof.
  apply (proj2 (search_rejects_iff_blank str_scalar env_with_key upstream_page_x
                  "" 1 "multi" [])).
  intros c [].
Defined.
